(** * BriefCard link-to-card pipeline and InsightHub subscription form

    A shallow embedding of the executable code of the repository:

    - the Python services sketched in
      [cursor_BriefCard/tech_implementation_guide.md]
      ([CrawlerService.generate_summary], [create_bookmark],
      [LineService.is_url], [LineService.create_bookmark_card]) together
      with the [bookmarks] table they write to;
    - [handleSubscription] of [insight_hub/app.js], and what the page
      shows of a subscription ([renderArticles], [renderDashboard],
      [showNewsletterPreview]);
    - the FAQ accordion of the landing page script.

    Python [str] values are sequences of Unicode code points, so they are
    modelled as lists of code points: [len] is [length] and the slice
    [s[:n]] is [take].  Dictionaries are finite maps from keys to values.
    Exceptions are values of an error monad. *)

From Stdlib Require Import ZArith Ascii String.
From stdpp Require Import gmap strings list.

Open Scope string_scope.
Open Scope list_scope.
Open Scope nat_scope.

(** ** Python values *)

Module Py.

(** A code point, [0 .. 0x10FFFF]. *)
Definition codepoint := N.

(** A Python [str]: a sequence of code points. *)
Definition str := list codepoint.

(** An ASCII literal of the source as a [str]. *)
Fixpoint lit (s : string) : str :=
  match s with
  | EmptyString => []
  | String a r => N_of_ascii a :: lit r
  end.

(** The values that the text columns of a row and the fields of the
    extracted page data hold: a string or [None] (SQL [NULL], JSON
    [null]). *)
Inductive value :=
| None_
| Str (s : str).

#[global] Instance value_eq_dec : EqDecision value.
Proof. solve_decision. Defined.

(** The exceptions the modelled code raises. *)
Inductive exn :=
| KeyError (key : string)
| TypeError (what : string)
| HTTPException (status_code : Z) (detail : message)
| Exception_ (what : string)
(** The text of an error: a literal, or [str(e)] of an exception. *)
with message :=
| Text (s : str)
| StrOf (e : exn).

(** A computation that returns or raises. *)
Inductive result (A : Type) :=
| Return (a : A)
| Raise (e : exn).
Arguments Return {A} a.
Arguments Raise {A} e.

#[global] Instance result_ret : MRet result := fun A a => Return a.
#[global] Instance result_bind : MBind result := fun A B f m =>
  match m with
  | Return a => f a
  | Raise e => Raise e
  end.

Abbreviation dict := (gmap string value).

(** [d[k]] *)
Definition getitem (d : dict) (k : string) : result value :=
  match d !! k with
  | Some v => Return v
  | None => Raise (KeyError k)
  end.

(** [d.get(k, default)] *)
Definition get (d : dict) (k : string) (dflt : value) : value :=
  default dflt (d !! k).

(** Truth value of an object: [None] and [''] are false. *)
Definition truthy (v : value) : bool :=
  match v with
  | None_ => false
  | Str [] => false
  | Str (_ :: _) => true
  end.

(** [a or b] *)
Definition or_ (a b : value) : value := if truthy a then a else b.

(** [len(v)] *)
Definition len (v : value) : result nat :=
  match v with
  | Str s => Return (length s)
  | None_ => Raise (TypeError "object of type 'NoneType' has no len()")
  end.

(** [str(v)], as an f-string formats a replacement field. *)
Definition to_str (v : value) : str :=
  match v with
  | Str s => s
  | None_ => lit "None"
  end.

(** [s[:n]] for an arbitrary integer [n]: a negative bound counts from
    the end, and bounds outside the string are clipped. *)
Definition slice_to (s : str) (n : Z) : str :=
  if (n <? 0)%Z
  then take (Z.to_nat (Z.max 0 (Z.of_nat (length s) + n))) s
  else take (Z.to_nat n) s.

(** [v[:n]] on a value. *)
Definition slice_value_to (v : value) (n : nat) : result str :=
  match v with
  | Str s => Return (take n s)
  | None_ => Raise (TypeError "'NoneType' object is not subscriptable")
  end.

End Py.

Import Py.

(** ** The pattern [https?://[^\s]+] and [re.search] *)

Module UrlPattern.

(** The class [\s] of [re] on [str] patterns: the ASCII white space
    [\t\n\v\f\r], the separators 0x1C-0x1F, the space, and the Unicode
    white space above ASCII. *)
Definition is_space (c : codepoint) : bool :=
  ((9 <=? c) && (c <=? 13) || (28 <=? c) && (c <=? 32)
   || (c =? 133) || (c =? 160) || (c =? 5760)
   || (8192 <=? c) && (c <=? 8202)
   || (c =? 8232) || (c =? 8233) || (c =? 8239) || (c =? 8287)
   || (c =? 12288))%N.

(** Match the literal [p] at the start of [s]; the rest of [s]. *)
Fixpoint match_literal (p s : str) : option str :=
  match p, s with
  | [], _ => Some s
  | a :: p', b :: s' => if (a =? b)%N then match_literal p' s' else None
  | _ :: _, [] => None
  end.

(** [[^\s]+], greedy: the longest run of non-space characters at the
    start of [s], which must not be empty. *)
Fixpoint nonspace_run (s : str) : str :=
  match s with
  | [] => []
  | c :: s' => if is_space c then [] else c :: nonspace_run s'
  end.

Definition match_nonspace_plus (s : str) : option str :=
  match nonspace_run s with
  | [] => None
  | run => Some run
  end.

(** [://[^\s]+] at the start of [s]; the text matched. *)
Definition match_tail (s : str) : option str :=
  r ← match_literal (lit "://") s;
  run ← match_nonspace_plus r;
  Some (lit "://" ++ run).

(** The whole pattern at the start of [s]: [s?] first tries to take
    the [s] and falls back to taking nothing. *)
Definition match_at (s : str) : option str :=
  r ← match_literal (lit "http") s;
  match r' ← match_literal (lit "s") r; match_tail r' with
  | Some t => Some (lit "https" ++ t)
  | None => t ← match_tail r; Some (lit "http" ++ t)
  end.

(** [re.search]: the match at the leftmost position that has one. *)
Fixpoint search (s : str) : option str :=
  match match_at s with
  | Some m => Some m
  | None =>
      match s with
      | [] => None
      | _ :: s' => search s'
      end
  end.

End UrlPattern.

(** ** services/line_service.py *)

Module LineService.

(** *** [is_url]: [bool(re.search(r'https?://[^\s]+', text))] *)

Definition is_url (text : str) : bool :=
  bool_decide (is_Some (UrlPattern.search text)).

(** *** Flex message structure built by [create_bookmark_card] *)

Inductive button_style := primary | secondary.

Inductive action :=
| uri_action (uri : value) (label : str)
| postback_action (data : str) (label : str).

Inductive component :=
| text_component (text : value) (weight : option str) (size : str)
    (color : option str) (wrap : bool) (margin : option str)
| button_component (style : button_style) (act : action)
    (margin : option str).

Record image := {
  url : value;
  size : str;
  aspectRatio : str;
  aspectMode : str
}.

Record box := {
  layout : str;
  spacing : option str;
  box_contents : list component
}.

Record bubble := {
  hero : image;
  body : box;
  footer : box
}.

Record flex_message := {
  altText : str;
  contents : bubble
}.

#[global] Instance button_style_eq_dec : EqDecision button_style.
Proof. solve_decision. Defined.

(** *** Literals of the source *)

Definition icon_png : str := lit "https://your-domain.com/icon.png".
Definition ellipsis : str := lit "...".
Definition edit_prefix : str := lit "https://your-liff-app.com/edit/".
Definition save_prefix : str := lit "save|".
(** U+1F4CB, space *)
Definition alt_prefix : str := [128203; 32]%N.
(** U+270F U+FE0F, space, and the four characters of the edit label *)
Definition edit_label : str := [9999; 65039; 32; 32232; 36655; 21345; 29255]%N.
(** U+1F4D6, space, and the four characters of the read label *)
Definition read_label : str := [128214; 32; 38321; 35712; 21407; 25991]%N.
(** U+1F4BE, space, and the four characters of the save label *)
Definition save_label : str := [128190; 32; 20445; 23384; 26360; 31844]%N.

(** *** [create_bookmark_card] *)

(** [bookmark_data.get('content_markdown', bookmark_data.get('description', ''))] *)
Definition main_content (bookmark_data : dict) : value :=
  get bookmark_data "content_markdown"
    (get bookmark_data "description" (Str [])).

(** [main_content[:100] + "..." if len(main_content) > 100 else main_content] *)
Definition content_preview (bookmark_data : dict) : result value :=
  let main_content := main_content bookmark_data in
  n ← len main_content;
  if decide (100 < n)
  then (s ← slice_value_to main_content 100; mret (Str (s ++ ellipsis)))
  else mret main_content.

(** [bookmark_data.get('image_url') or bookmark_data.get('preview_image')
     or 'https://your-domain.com/icon.png'] *)
Definition image_url (bookmark_data : dict) : value :=
  or_ (get bookmark_data "image_url" None_)
    (or_ (get bookmark_data "preview_image" None_) (Str icon_png)).

Definition create_bookmark_card (bookmark_data : dict) : result flex_message :=
  content_preview ← content_preview bookmark_data;
  let image_url := image_url bookmark_data in
  alt_title ← getitem bookmark_data "title";
  title ← getitem bookmark_data "title";
  edit_id ← getitem bookmark_data "id";
  original ← getitem bookmark_data "url";
  save_id ← getitem bookmark_data "id";
  mret {|
    altText := alt_prefix ++ to_str alt_title;
    contents := {|
      hero := {| url := image_url;
                 size := lit "full";
                 aspectRatio := lit "16:9";
                 aspectMode := lit "cover" |};
      body := {|
        layout := lit "vertical";
        spacing := None;
        box_contents := [
          text_component title (Some (lit "bold")) (lit "lg") None true None;
          text_component content_preview None (lit "sm")
            (Some (lit "#666666")) true (Some (lit "md"));
          button_component primary
            (uri_action (Str (edit_prefix ++ to_str edit_id)) edit_label)
            (Some (lit "md"))
        ] |};
      footer := {|
        layout := lit "horizontal";
        spacing := Some (lit "sm");
        box_contents := [
          button_component secondary (uri_action original read_label) None;
          button_component secondary
            (postback_action (save_prefix ++ to_str save_id) save_label) None
        ] |}
    |}
  |}.

End LineService.

(** ** services/crawler_service.py *)

Module CrawlerService.

(** [content[:max_length] + "..." if len(content) > max_length else content] *)
Definition generate_summary (content : str) (max_length : Z) : str :=
  if (max_length <? Z.of_nat (length content))%Z
  then slice_to content max_length ++ lit "..."
  else content.

(** The default [max_length: int = 200]. *)
Definition default_max_length : Z := 200.

(** What [json.loads] gives when the extracted content is not a JSON
    object. *)
Inductive not_object :=
| json_array
| json_string
| json_int
| json_float
| json_bool
| json_null.

(** [data[key]] with a string [key] on such a value. *)
Definition getitem_not_object (data : not_object) : exn :=
  TypeError
    match data with
    | json_array => "list indices must be integers or slices, not str"
    | json_string => "string indices must be integers, not 'str'"
    | json_int => "'int' object is not subscriptable"
    | json_float => "'float' object is not subscriptable"
    | json_bool => "'bool' object is not subscriptable"
    | json_null => "'NoneType' object is not subscriptable"
    end.

(** What running the crawler inside the [try] of [extract_page_data]
    comes to; the extracted content of a successful run is a JSON object
    or some other JSON value. *)
Inductive crawl_run :=
| run_raises (e : exn)
| run_unsuccessful (error_message : message)
| run_successful (extracted_data : dict) (markdown : str)
| run_successful_not_object (extracted_data : not_object) (markdown : str).


(** The dictionary [extract_page_data] returns ([images] and [links]
    are read by no caller). *)
Inductive crawl_result :=
| crawl_ok (data : dict) (raw_content : str)
| crawl_failed (error : message)
| crawl_ok_not_object (data : not_object) (raw_content : str).

Definition success (r : crawl_result) : bool :=
  match r with
  | crawl_ok _ _ => true
  | crawl_failed _ => false
  | crawl_ok_not_object _ _ => true
  end.

Definition extract_page_data (run : crawl_run) : crawl_result :=
  match run with
  | run_successful extracted_data markdown => crawl_ok extracted_data markdown
  | run_successful_not_object extracted_data markdown =>
      crawl_ok_not_object extracted_data markdown
  | run_unsuccessful error_message => crawl_failed error_message
  | run_raises e => crawl_failed (StrOf e)
  end.

End CrawlerService.

(** ** main.py and the [bookmarks] table *)

Module Main.

(** A row of [bookmarks]. *)
Record bookmark := {
  id : str;
  user_id : value;
  folder_id : value;
  url : str;
  title : value;
  description : value;
  image_url : value;
  content_markdown : value;
  summary : value;
  notes : value;
  tags : option (list str);
  created_at : N;
  updated_at : N
}.

#[global] Instance bookmark_eq_dec : EqDecision bookmark.
Proof. solve_decision. Defined.

(** What the database contributes to one [INSERT]: the value of
    [gen_random_uuid()], the value of [now()], and whether the statement
    is refused for a reason outside the table itself (connection, the
    foreign key on [user_id], a row-level-security policy). *)
Record insert_env := {
  gen_random_uuid : str;
  now : N;
  refused : option string
}.

(** [supabase.table("bookmarks").insert(data).execute()]: the columns
    come from [data], the others take their defaults; [url] is
    [NOT NULL] and [id] is the only key of the table. *)
Definition insert (env : insert_env) (data : dict) (table : list bookmark)
  : result (bookmark * list bookmark) :=
  match refused env with
  | Some what => Raise (Exception_ what)
  | None =>
      match get data "url" None_ with
      | None_ => Raise (Exception_ "null value in column url")
      | Str u =>
          if decide (gen_random_uuid env ∈ id <$> table)
          then Raise (Exception_ "duplicate key value bookmarks_pkey")
          else
            let row := {|
              id := gen_random_uuid env;
              user_id := get data "user_id" None_;
              folder_id := get data "folder_id" None_;
              url := u;
              title := get data "title" None_;
              description := get data "description" None_;
              image_url := get data "image_url" None_;
              content_markdown := get data "content_markdown" None_;
              summary := get data "summary" None_;
              notes := get data "notes" None_;
              tags := None;
              created_at := now env;
              updated_at := now env
            |} in
            Return (row, table ++ [row])
      end
  end.

(** The detail of the 400 error: seven characters, "cannot process this
    address". *)
Definition cannot_process : str :=
  [28961; 27861; 34389; 29702; 27492; 32178; 22336]%N.

(** The body of the [try] of [create_bookmark]. *)
Definition create_bookmark_try (url user_id : str)
    (run : CrawlerService.crawl_run) (env : insert_env)
    (table : list bookmark) : result (bookmark * list bookmark) :=
  match CrawlerService.extract_page_data run with
  | CrawlerService.crawl_failed _ =>
      Raise (HTTPException 400 (Text cannot_process))
  | CrawlerService.crawl_ok_not_object page_data _ =>
      Raise (CrawlerService.getitem_not_object page_data)
  | CrawlerService.crawl_ok page_data _ =>
      page_title ← getitem page_data "title";
      page_description ← getitem page_data "description";
      page_content ← getitem page_data "content_markdown";
      page_image ← getitem page_data "main_image";
      let bookmark_data : dict :=
        <["user_id" := Str user_id]>
        (<["url" := Str url]>
        (<["title" := page_title]>
        (<["description" := page_description]>
        (<["content_markdown" := page_content]>
        (<["image_url" := page_image]> ∅))))) in
      insert env bookmark_data table
  end.

(** [create_bookmark]: the response (the inserted row, or the
    [HTTPException] raised to the caller) and the table afterwards.
    [except Exception as e] turns every exception of the body, the 400
    included, into a 500 whose detail is [str(e)]. *)
Definition create_bookmark (url user_id : str)
    (run : CrawlerService.crawl_run) (env : insert_env)
    (table : list bookmark) : result bookmark * list bookmark :=
  match create_bookmark_try url user_id run env table with
  | Return (row, table') => (Return row, table')
  | Raise e => (Raise (HTTPException 500 (StrOf e)), table)
  end.

(** The rows of [owner] for [u]. *)
Definition rows_of (owner : str) (u : str) (table : list bookmark)
  : list bookmark :=
  filter (λ r, user_id r = Str owner ∧ url r = u) table.

End Main.

(** ** insight_hub/app.js *)

Module InsightHub.

(** The object assigned to [currentUser]. *)
Record user := {
  email : option string;
  frequency : option string;
  topics : list string;
  subscriptionDate : string;
  status : string
}.

(** The JSON body posted to the webhook. *)
Record webhook_body := {
  body_email : option string;
  body_topics : list string;
  body_frequency : option string;
  body_subscriptionDate : string;
  body_source : string
}.

(** What the page is asked to do, in order. *)
Inductive effect :=
| alert (msg : string)
| fetch_post (endpoint : string) (body : webhook_body)
| showSuccessToast
| renderDashboard (shown : option user)
| setTimeout_scrollToSection (sectionId : string) (delay : N).

(** [currentUser], [window.newsletterUser] and the effects so far. *)
Record state := {
  currentUser : option user;
  newsletterUser : option user;
  effects : list effect
}.

(** What [FormData] holds for the subscribe form: [get] gives [null]
    for a missing field. *)
Record form_data := {
  get_email : option string;
  get_frequency : option string;
  getAll_topics : list string
}.

(** [!email]: [null] and the empty string are falsy. *)
Definition not_ (v : option string) : bool :=
  match v with
  | None => true
  | Some EmptyString => true
  | Some (String _ _) => false
  end.

(** [iso.split('T')[0]] *)
Fixpoint split_T_0 (iso : string) : string :=
  match iso with
  | EmptyString => EmptyString
  | String c rest =>
      if Ascii.eqb c "T"%char then EmptyString else String c (split_T_0 rest)
  end.

Definition webhook_endpoint : string :=
  "https://waynetang.zeabur.app/webhook/7f609c50-3951-4b65-897d-3c4b020b9701".

Definition required_fields_message : string := "請填寫所有必填欄位".

Definition saveCurrentUser (u : user) (st : state) : state :=
  {| currentUser := currentUser st;
     newsletterUser := Some u;
     effects := effects st |}.

Definition emit (e : effect) (st : state) : state :=
  {| currentUser := currentUser st;
     newsletterUser := newsletterUser st;
     effects := effects st ++ [e] |}.

(** [handleSubscription]; [iso1] and [iso2] are what the two calls of
    [new Date().toISOString()] return.  The callbacks of the [fetch]
    promise run after the function has returned and are not part of it. *)
Definition handleSubscription (form : form_data) (iso1 iso2 : string)
    (st : state) : state :=
  let email := get_email form in
  let frequency := get_frequency form in
  let selectedTopics := getAll_topics form in
  if not_ email || bool_decide (length selectedTopics = 0)
  then emit (alert required_fields_message) st
  else
    let u := {| email := email;
                frequency := frequency;
                topics := selectedTopics;
                subscriptionDate := split_T_0 iso1;
                status := "active" |} in
    let st1 := {| currentUser := Some u;
                  newsletterUser := newsletterUser st;
                  effects := effects st |} in
    let st2 := saveCurrentUser u st1 in
    let st3 := emit (fetch_post webhook_endpoint
                       {| body_email := email;
                          body_topics := selectedTopics;
                          body_frequency := frequency;
                          body_subscriptionDate := iso2;
                          body_source := "insight_hub_web" |}) st2 in
    let st4 := emit showSuccessToast st3 in
    let st5 := emit (renderDashboard (currentUser st4)) st4 in
    emit (setTimeout_scrollToSection "dashboard" 1000) st5.

End InsightHub.


(** ** Reading a card *)

Module Card.

Import LineService.

(** The hero image of the card. *)
Definition image (m : flex_message) : value :=
  url (hero (contents m)).

(** The texts of the body, in order: the title, then the preview. *)
Definition texts (m : flex_message) : list value :=
  omap (λ c, match c with
             | text_component t _ _ _ _ _ => Some t
             | button_component _ _ _ => None
             end) (box_contents (body (contents m))).

Definition title (m : flex_message) : option value := texts m !! 0.
Definition preview (m : flex_message) : option value := texts m !! 1.

(** The buttons of the card, body first, then footer: style and action. *)
Definition buttons (m : flex_message) : list (button_style * action) :=
  omap (λ c, match c with
             | button_component st a _ => Some (st, a)
             | text_component _ _ _ _ _ _ => None
             end)
    (box_contents (body (contents m)) ++ box_contents (footer (contents m))).

(** The actions of the buttons of one style. *)
Definition actions_of (st : button_style) (m : flex_message) : list action :=
  snd <$> filter (λ b, fst b = st) (buttons m).

(** What a button is apart from the data put into it: its style, the
    type of its action and its label. *)
Inductive action_type := uri | postback.

Definition shape (b : button_style * action) : button_style * action_type * str :=
  match snd b with
  | uri_action _ l => (fst b, uri, l)
  | postback_action _ l => (fst b, postback, l)
  end.

End Card.

(** ** The URL Extractor as the specification words it

    Section 4.1: every match of the HTTP(S) pattern in the message, in
    order, duplicates collapsed to their first occurrence, at most three
    entries.  The source has no such operation; this definition is what
    [is_url] is compared with. *)

Module SpecExtractor.

(** The matches of the pattern from left to right, none overlapping
    another; [skip] characters of the last match are still to be passed. *)
Fixpoint findall (skip : nat) (s : str) : list str :=
  match s with
  | [] => []
  | _ :: s' =>
      match skip with
      | S k => findall k s'
      | O =>
          match UrlPattern.match_at s with
          | Some m => m :: findall (length m - 1) s'
          | None => findall 0 s'
          end
      end
  end.

(** Drop every entry seen before. *)
Fixpoint distinct (seen l : list str) : list str :=
  match l with
  | [] => []
  | x :: l' =>
      if decide (x ∈ seen) then distinct seen l'
      else x :: distinct (x :: seen) l'
  end.

Definition max_urls : nat := 3.

Definition extract_urls (text : str) : list str :=
  take max_urls (distinct [] (findall 0 text)).

End SpecExtractor.

(** ** Sample inputs *)

Module Samples.

(** A bookmark with its three required keys and nothing else. *)
Definition bare : dict :=
  <["title" := Str (lit "A")]>
  (<["id" := Str (lit "42")]>
  (<["url" := Str (lit "https://example.com/a")]> ∅)).

(** The same without a title. *)
Definition untitled : dict :=
  <["id" := Str (lit "42")]>
  (<["url" := Str (lit "https://example.com/a")]> ∅).

(** A main content of 101 characters. *)
Definition long_content : dict :=
  <["content_markdown" := Str (replicate 101 97%N)]> bare.


(** Two messages, each with one link. *)
Definition message_a : str := lit "see https://a.example/x".
Definition message_b : str := lit "see https://b.example/y".

(** A message with five links, one of them twice, and a link of another
    scheme. *)
Definition message_many : str :=
  lit "https://a.io http://b.io ftp://z.io https://a.io https://c.io https://d.io".

(** A crawl that does not succeed. *)
Definition crawl_timeout : CrawlerService.crawl_run :=
  CrawlerService.run_raises (Exception_ "Timeout 60000ms exceeded").

(** A crawl that succeeds with the four fields [create_bookmark] reads. *)
Definition crawl_fine : CrawlerService.crawl_run :=
  CrawlerService.run_successful
    (<["title" := Str (lit "A")]>
     (<["description" := Str (lit "desc")]>
     (<["content_markdown" := Str (lit "# A")]>
     (<["main_image" := None_]> ∅))))
    (lit "# A").

(** The database at two successive statements. *)
Definition first_insert : Main.insert_env :=
  {| Main.gen_random_uuid := lit "0b0e7a3e-0000-4000-8000-000000000001";
     Main.now := 1000%N;
     Main.refused := None |}.
Definition second_insert : Main.insert_env :=
  {| Main.gen_random_uuid := lit "0b0e7a3e-0000-4000-8000-000000000002";
     Main.now := 2000%N;
     Main.refused := None |}.

Definition owner : str := lit "7d9f6c1a-0000-4000-8000-00000000000a".
Definition link : str := lit "https://example.com/a".


(** A form without an address, and one without a topic. *)
Definition form_no_email : InsightHub.form_data :=
  {| InsightHub.get_email := Some "";
     InsightHub.get_frequency := Some "weekly";
     InsightHub.getAll_topics := ["AI"] |}.
Definition form_no_topic : InsightHub.form_data :=
  {| InsightHub.get_email := Some "a@b.c";
     InsightHub.get_frequency := Some "weekly";
     InsightHub.getAll_topics := [] |}.
Definition form_complete : InsightHub.form_data :=
  {| InsightHub.get_email := Some "a@b.c";
     InsightHub.get_frequency := Some "weekly";
     InsightHub.getAll_topics := ["AI"; "ESG"] |}.

(** A bookmark with a hero image and a captured page preview, and one
    whose hero image is the empty string. *)
Definition with_hero : dict :=
  <["image_url" := Str (lit "https://example.com/hero.png")]>
  (<["preview_image" := Str (lit "https://example.com/shot.png")]> bare).
Definition with_preview_only : dict :=
  <["image_url" := Str []]>
  (<["preview_image" := Str (lit "https://example.com/shot.png")]> bare).

Definition fresh_page : InsightHub.state :=
  {| InsightHub.currentUser := None;
     InsightHub.newsletterUser := None;
     InsightHub.effects := [] |}.

End Samples.

(** ** insight_hub/app.js: [appData] *)

Module AppData.

Record article := {
  id : N;
  title : string;
  excerpt : string;
  date : string;
  topic : string;
  author : string;
  readTime : string
}.

Record topic_entry := {
  name : string;
  displayName : string;
  description : string;
  color : string;
  subscribers : N
}.

Record frequency_entry := {
  value : string;
  label : string;
  frequency_description : string
}.

Definition articles : list article := [
  {| id := 1;
     title := "The Future of AI in Content Creation";
     excerpt := "探索人工智慧如何革命性地改變內容創作領域，從自動化寫作到個人化推薦系統。";
     date := "2025-06-14";
     topic := "AI";
     author := "Dr. Sarah Chen";
     readTime := "5 min read" |};
  {| id := 2;
     title := "Blockchain Technology Revolutionizing Supply Chain";
     excerpt := "深入了解區塊鏈技術如何提高供應鏈透明度和效率，創造更可信賴的商業環境。";
     date := "2025-06-13";
     topic := "Blockchain";
     author := "Mike Johnson";
     readTime := "7 min read" |};
  {| id := 3;
     title := "ESG Investment Trends in 2025";
     excerpt := "分析ESG投資的最新趨勢，探討可持續發展如何成為企業成功的關鍵因素。";
     date := "2025-06-12";
     topic := "ESG";
     author := "Lisa Wang";
     readTime := "6 min read" |};
  {| id := 4;
     title := "Machine Learning in Financial Services";
     excerpt := "了解機器學習如何改變金融服務業，從風險評估到客戶服務的全面革新。";
     date := "2025-06-11";
     topic := "AI";
     author := "Robert Kim";
     readTime := "8 min read" |};
  {| id := 5;
     title := "Decentralized Finance (DeFi) Explained";
     excerpt := "深入探討去中心化金融的概念、優勢和挑戰，以及它對傳統金融系統的影響。";
     date := "2025-06-10";
     topic := "Blockchain";
     author := "Alex Thompson";
     readTime := "9 min read" |};
  {| id := 6;
     title := "Corporate Sustainability Reporting Standards";
     excerpt := "解析最新的企業永續發展報告標準，幫助企業建立透明的ESG績效指標。";
     date := "2025-06-09";
     topic := "ESG";
     author := "Emma Martinez";
     readTime := "5 min read" |}
]%N.

Definition topics : list topic_entry := [
  {| name := "AI";
     displayName := "人工智慧";
     description := "最新的AI技術趨勢、應用案例和未來發展";
     color := "#4F46E5";
     subscribers := 12500 |};
  {| name := "Blockchain";
     displayName := "區塊鏈";
     description := "區塊鏈技術、加密貨幣和去中心化應用";
     color := "#059669";
     subscribers := 8900 |};
  {| name := "ESG";
     displayName := "永續發展";
     description := "環境、社會和治理相關的商業實踐";
     color := "#DC2626";
     subscribers := 15200 |};
  {| name := "Technology";
     displayName := "科技趨勢";
     description := "最新科技發展和創新應用";
     color := "#7C2D12";
     subscribers := 10800 |}
]%N.

Definition newsletterFrequencies : list frequency_entry := [
  {| value := "daily"; label := "每日"; frequency_description := "每天接收最新文章" |};
  {| value := "weekly"; label := "每週"; frequency_description := "每週精選重點文章" |};
  {| value := "monthly"; label := "每月"; frequency_description := "每月深度分析報告" |}
].

End AppData.

(** ** insight_hub/app.js: what the page shows

    Strings are kept as their UTF-8 bytes; the only characters the code
    looks for in them, [T] and [@], are ASCII, and all other uses are
    comparisons and concatenations. *)

Module Render.

(** How a function of the page completes: with its result, or with the
    [TypeError] it throws. *)
Inductive completion (A : Type) :=
| Normal (a : A)
| Throw (error : string).
Arguments Normal {A} a.
Arguments Throw {A} error.

#[global] Instance completion_ret : MRet completion := fun A a => Normal a.
#[global] Instance completion_bind : MBind completion := fun A B f m =>
  match m with
  | Normal a => f a
  | Throw error => Throw error
  end.

(** [s.split(sep)[0]] for a separator of one character. *)
Fixpoint split_0 (sep : ascii) (s : string) : string :=
  match s with
  | EmptyString => EmptyString
  | String c rest =>
      if Ascii.eqb c sep then EmptyString else String c (split_0 sep rest)
  end.

(** [a || b] on strings that may be [null] or [undefined]. *)
Definition or_ (a b : option string) : option string :=
  if InsightHub.not_ a then b else a.

(** [appData.topics.find(t => t.name === topicName)] *)
Definition find_topic (topicName : string) : option AppData.topic_entry :=
  List.find (λ t, String.eqb (AppData.name t) topicName) AppData.topics.

(** *** [getCurrentUser], [clearCurrentUser] *)

(** [window.newsletterUser || null]; an object is never falsy. *)
Definition getCurrentUser (st : InsightHub.state) : option InsightHub.user :=
  InsightHub.newsletterUser st.

(** [delete window.newsletterUser] *)
Definition clearCurrentUser (st : InsightHub.state) : InsightHub.state :=
  {| InsightHub.currentUser := InsightHub.currentUser st;
     InsightHub.newsletterUser := None;
     InsightHub.effects := InsightHub.effects st |}.

(** *** [renderArticles] *)

(** The values put into the markup of one article card. *)
Record article_card := {
  data_topic : string;
  topic_color : string;
  topic_displayName : string;
  article_title : string;
  article_excerpt : string;
  article_author : string;
  article_readTime : string
}.

(** The cards written into the grid; [topic.color] throws when [find]
    has found no topic. *)
Definition renderArticles (filterTopic : string)
  : completion (list article_card) :=
  let filteredArticles :=
    if String.eqb filterTopic "all" then AppData.articles
    else filter (λ article, AppData.topic article = filterTopic)
           AppData.articles in
  mapM (λ article,
          match find_topic (AppData.topic article) with
          | Some topic =>
              Normal {| data_topic := AppData.topic article;
                        topic_color := AppData.color topic;
                        topic_displayName := AppData.displayName topic;
                        article_title := AppData.title article;
                        article_excerpt := AppData.excerpt article;
                        article_author := AppData.author article;
                        article_readTime := AppData.readTime article |}
          | None =>
              Throw "Cannot read properties of undefined (reading 'color')"
          end) filteredArticles.

(** *** [renderDashboard] *)

(** What the dashboard shows: the placeholder, or the values put into the
    markup of the active dashboard. *)
Inductive dashboard :=
| dashboard_placeholder
| dashboard_active (email : option string) (frequencyLabel : option string)
    (subscriptionDate : string) (subscribedTopicsInfo : list (string * string)).

(** [appData.newsletterFrequencies.find(f => f.value ===
    currentUser.frequency)?.label || currentUser.frequency] *)
Definition frequencyLabel (u : InsightHub.user) : option string :=
  or_ (AppData.label <$>
         List.find (λ f, match InsightHub.frequency u with
                         | Some v => String.eqb (AppData.value f) v
                         | None => false
                         end) AppData.newsletterFrequencies)
      (InsightHub.frequency u).

(** [currentUser.topics.map(...).filter(Boolean)]: the display name and
    the colour of each topic that [find] finds. *)
Definition subscribedTopicsInfo (u : InsightHub.user) : list (string * string) :=
  omap (λ topicName,
          (λ topic, (AppData.displayName topic, AppData.color topic))
            <$> find_topic topicName)
       (InsightHub.topics u).

Definition renderDashboard (currentUser : option InsightHub.user) : dashboard :=
  match currentUser with
  | None => dashboard_placeholder
  | Some u =>
      dashboard_active (InsightHub.email u) (frequencyLabel u)
        (InsightHub.subscriptionDate u) (subscribedTopicsInfo u)
  end.

(** *** [showNewsletterPreview] *)

(** The values put into the markup of the preview. *)
Record newsletter := {
  topicNames : string;
  newsletter_date : string;
  recipient : string;
  relevantArticles : list AppData.article
}.

(** The preview written into the modal, which is then shown; [today] is
    [new Date().toLocaleDateString('zh-TW')].  Reading [topics] of a
    [currentUser] that is [null], or [split] of an [email] that is
    [null], throws. *)
Definition showNewsletterPreview (currentUser : option InsightHub.user)
    (today : string) : completion newsletter :=
  match currentUser with
  | None => Throw "Cannot read properties of null (reading 'topics')"
  | Some u =>
      let userTopics := InsightHub.topics u in
      let relevantArticles :=
        take 3 (filter (λ article, AppData.topic article ∈ userTopics)
                  AppData.articles) in
      let topicNames :=
        String.concat "與"
          ((λ topicName,
              match find_topic topicName with
              | Some topic => AppData.displayName topic
              | None => topicName
              end) <$> userTopics) in
      match InsightHub.email u with
      | None => Throw "Cannot read properties of null (reading 'split')"
      | Some email =>
          Normal {| topicNames := topicNames;
                    newsletter_date := today;
                    recipient := split_0 "@" email;
                    relevantArticles := relevantArticles |}
      end
  end.

End Render.

(** ** Sample visitors *)

Module Visitors.

(** A subscriber to two topics. *)
Definition sarah : InsightHub.user :=
  {| InsightHub.email := Some "sarah@example.com";
     InsightHub.frequency := Some "weekly";
     InsightHub.topics := ["AI"; "Blockchain"];
     InsightHub.subscriptionDate := "2025-06-15";
     InsightHub.status := "active" |}.

(** A subscriber to the one topic that has no article, and to a topic the
    page does not know. *)
Definition techie : InsightHub.user :=
  {| InsightHub.email := Some "t@example.com";
     InsightHub.frequency := Some "hourly";
     InsightHub.topics := ["Technology"; "Gardening"];
     InsightHub.subscriptionDate := "2025-06-15";
     InsightHub.status := "active" |}.

End Visitors.


(** ** The card of an article *)

Module ArticleCard.

(** [c] is the card of the article [a]: it carries the topic, title,
    excerpt, author and reading time of [a] and the colour and display
    name of the topic of [a]. *)
Definition card_of (a : AppData.article) (c : Render.article_card) : Prop :=
  Render.data_topic c = AppData.topic a ∧
  Render.article_title c = AppData.title a ∧
  Render.article_excerpt c = AppData.excerpt a ∧
  Render.article_author c = AppData.author a ∧
  Render.article_readTime c = AppData.readTime a ∧
  ∃ t, t ∈ AppData.topics ∧ AppData.name t = AppData.topic a ∧
       Render.topic_color c = AppData.color t ∧
       Render.topic_displayName c = AppData.displayName t.

End ArticleCard.

(** ** unnamed/part_000: the FAQ accordion *)

Module Faq.

(** One [.faq-item]: whether it has the class [active], the height of
    its content in pixels as [initFAQ] stored it in [--content-height],
    and the inline [max-height] (in pixels) and [transform] of its
    answer, if set. *)
Record item := {
  active : bool;
  content_height : N;
  maxHeight : option N;
  transform : option string
}.

Definition openItem (it : item) : item :=
  {| active := true;
     content_height := content_height it;
     maxHeight := Some (content_height it);
     transform := Some "translateZ(0)" |}.

Definition closeItem (it : item) : item :=
  {| active := false;
     content_height := content_height it;
     maxHeight := Some 0%N;
     transform := transform it |}.

(** The click handler of the question of item [i]: close every other
    item that is active, then close the item if it was active and open
    it otherwise. *)
Definition click (i : nat) (faqItems : list item) : list item :=
  match faqItems !! i with
  | None => faqItems
  | Some it =>
      let isActive := active it in
      let others :=
        imap (λ j otherItem,
                if bool_decide (j ≠ i) && active otherItem
                then closeItem otherItem else otherItem) faqItems in
      alter (if isActive then closeItem else openItem) i others
  end.

(** The Escape key: [document.querySelector('.faq-item.active')] is the
    first active item, which loses the class [active]. *)
Definition escape (faqItems : list item) : list item :=
  match list_find (λ it, active it = true) faqItems with
  | Some (i, _) =>
      alter (λ it, {| active := false;
                      content_height := content_height it;
                      maxHeight := maxHeight it;
                      transform := transform it |}) i faqItems
  | None => faqItems
  end.

(** The items that are active. *)
Definition open_items (faqItems : list item) : list item :=
  filter (λ it, active it = true) faqItems.

End Faq.

(** ** Sample accordions *)

Module Accordions.

(** An item as the style sheet leaves it, closed, nothing set inline. *)
Definition untouched (h : N) : Faq.item :=
  {| Faq.active := false; Faq.content_height := h;
     Faq.maxHeight := None; Faq.transform := None |}.


Definition all_closed : list Faq.item := [untouched 40; untouched 50; untouched 60]%N.

End Accordions.

(** * Properties *)

Import LineService.

(** ** The card composer *)

Section create_bookmark_card_facts.

Lemma getitem_Return (d : dict) k v :
  getitem d k = Return v ↔ d !! k = Some v.
Proof.
  unfold getitem. destruct (d !! k); split; intros H; by inversion H.
Qed.

(** A card is returned exactly when the preview can be computed and the
    three required keys are there; the card is then determined. *)
Lemma create_bookmark_card_Return (d : dict) (m : flex_message) :
  create_bookmark_card d = Return m →
  ∃ p t i u,
    content_preview d = Return p ∧
    d !! "title" = Some t ∧ d !! "id" = Some i ∧ d !! "url" = Some u ∧
    Card.image m = image_url d ∧
    Card.texts m = [t; p] ∧
    Card.buttons m =
      [(primary, uri_action (Str (edit_prefix ++ to_str i)) edit_label);
       (secondary, uri_action u read_label);
       (secondary, postback_action (save_prefix ++ to_str i) save_label)].
Proof.
  unfold create_bookmark_card, getitem.
  destruct (content_preview d) as [p|e]; [|discriminate]. simpl.
  destruct (d !! "title") as [t|]; [|discriminate]. simpl.
  destruct (d !! "id") as [i|]; [|discriminate]. simpl.
  destruct (d !! "url") as [u|]; [|discriminate]. simpl.
  intros [= <-]. by exists p, t, i, u.
Qed.

Lemma content_preview_Return (d : dict) (p : value) :
  content_preview d = Return p →
  ∃ s, main_content d = Str s ∧
       p = Str (if decide (100 < length s) then take 100 s ++ ellipsis else s).
Proof.
  unfold content_preview.
  destruct (main_content d) as [|s]; [discriminate|]. simpl.
  intros H. exists s. split; [done|].
  destruct (decide (100 < length s)); simpl in H; by inversion H.
Qed.

Lemma content_preview_Str (d : dict) (s : str) :
  main_content d = Str s →
  content_preview d =
    Return (Str (if decide (100 < length s) then take 100 s ++ ellipsis else s)).
Proof.
  unfold content_preview. intros ->. simpl.
  by destruct (decide (100 < length s)).
Qed.

End create_bookmark_card_facts.

(** A [content_markdown] that is there but [None] is not a missing key:
    [len] fails on it. *)
Example create_bookmark_card_None_content :
  create_bookmark_card (<["content_markdown" := None_]> Samples.bare) =
    Raise (TypeError "object of type 'NoneType' has no len()").
Proof. vm_compute; reflexivity. Qed.

(** *** Optional fields absent *)

(** C4, as the code has it: a bookmark that has its [title], [id] and
    [url] and none of [content_markdown], [description], [image_url] and
    [preview_image] is composed without an exception; the image of the
    card is the default icon, which is not empty, its title is the given
    title, and its preview text is the empty string. *)
Theorem card_without_optional_fields (d : dict) (t i u : value) :
  d !! "title" = Some t → d !! "id" = Some i → d !! "url" = Some u →
  d !! "content_markdown" = None → d !! "description" = None →
  d !! "image_url" = None → d !! "preview_image" = None →
  ∃ m, create_bookmark_card d = Return m ∧
       Card.image m = Str icon_png ∧ icon_png ≠ [] ∧
       Card.title m = Some t ∧
       Card.preview m = Some (Str []).
Proof.
  intros Ht Hi Hu Hc Hd Him Hp.
  unfold create_bookmark_card, content_preview, main_content, image_url,
    get, getitem.
  rewrite Ht, Hi, Hu, Hc, Hd, Him, Hp. simpl.
  eexists. split; [reflexivity|]. by repeat split.
Qed.

Lemma card_without_optional_fields_witness :
  ∃ m, create_bookmark_card Samples.bare = Return m ∧
       Card.image m = Str icon_png ∧ icon_png ≠ [] ∧
       Card.title m = Some (Str (lit "A")) ∧
       Card.preview m = Some (Str []).
Proof.
  apply (card_without_optional_fields Samples.bare
           (Str (lit "A")) (Str (lit "42")) (Str (lit "https://example.com/a")));
    vm_compute; reflexivity.
Defined.

(** C4 fails as stated: without a title the composer raises, and with
    the required keys alone the preview text is empty. *)
Lemma card_preview_empty_or_KeyError :
  create_bookmark_card Samples.untitled = Raise (KeyError "title") ∧
  ∃ m, create_bookmark_card Samples.bare = Return m ∧
       Card.preview m = Some (Str []).
Proof.
  split; [vm_compute; reflexivity|].
  eexists. split; vm_compute; reflexivity.
Qed.

(** *** Length of the preview text *)

(** C5, as the code has it: the preview text of a card has at most 103
    characters.  It is the main content itself when that has at most 100
    characters, and otherwise the first 100 code points of the main
    content followed by the three characters of ["..."]; the cut falls
    between two code points of the content. *)
Theorem card_preview_length (d : dict) (m : flex_message) :
  create_bookmark_card d = Return m →
  ∃ s p, main_content d = Str s ∧ Card.preview m = Some (Str p) ∧
    length p ≤ 103 ∧
    (length s ≤ 100 → p = s) ∧
    (100 < length s →
       p = take 100 s ++ lit "..." ∧ length p = 103 ∧
       s = take 100 s ++ drop 100 s).
Proof.
  intros (p & t & i & u & Hp & _ & _ & _ & _ & Htexts & _)%create_bookmark_card_Return.
  apply content_preview_Return in Hp as (s & Hs & ->).
  exists s. eexists. split; [done|].
  split; [unfold Card.preview; by rewrite Htexts|].
  destruct (decide (100 < length s)) as [Hlt|Hge].
  - assert (length (take 100 s ++ ellipsis) = 103) as Hlen.
    { rewrite length_app, length_take. change (length ellipsis) with 3. lia. }
    split; [lia|]. split; [lia|]. intros _.
    split; [done|]. split; [done|]. by rewrite take_drop.
  - split; [lia|]. split; [done|]. lia.
Qed.

Lemma card_preview_length_witness :
  ∃ m, create_bookmark_card Samples.long_content = Return m ∧
  ∃ s p, main_content Samples.long_content = Str s ∧
    Card.preview m = Some (Str p) ∧
    length p ≤ 103 ∧
    (length s ≤ 100 → p = s) ∧
    (100 < length s →
       p = take 100 s ++ lit "..." ∧ length p = 103 ∧
       s = take 100 s ++ drop 100 s).
Proof.
  eexists. split; [vm_compute; reflexivity|].
  apply (card_preview_length Samples.long_content). vm_compute; reflexivity.
Defined.

(** C5 fails as stated: a main content of 101 characters gives a preview
    text of 103 characters. *)
Lemma card_preview_longer_than_100 :
  ∃ m p, create_bookmark_card Samples.long_content = Return m ∧
         Card.preview m = Some (Str p) ∧ length p = 103 ∧ ¬ length p ≤ 100.
Proof.
  eexists. eexists. split; [vm_compute; reflexivity|].
  split; [vm_compute; reflexivity|]. split; [reflexivity|]. simpl. lia.
Qed.

(** *** Choice of the preview text *)





(** *** Choice of the image *)

Lemma truthy_Str (v : value) :
  truthy v = true → ∃ s, v = Str s ∧ s ≠ [].
Proof.
  destruct v as [|[|c s]]; try discriminate. intros _. by eexists.
Qed.

(** C7: the image of a card is chosen in order.  A bookmark whose
    [image_url] is a non-empty string gets that one; when [image_url] is
    missing, [None] or empty, a [preview_image] that is a non-empty
    string is taken; when that is missing, [None] or empty too, the image
    is the default icon.  In every case the image is a non-empty string,
    and every bookmark that can be composed (a main content that is a
    string, and a [title], an [id] and a [url]) gets a card with exactly
    this image. *)
Theorem image_fallback_chain (d : dict) :
  (∀ c s, d !! "image_url" = Some (Str (c :: s)) →
          image_url d = Str (c :: s)) ∧
  (∀ c s, d !! "image_url" ∈ [None; Some None_; Some (Str [])] →
          d !! "preview_image" = Some (Str (c :: s)) →
          image_url d = Str (c :: s)) ∧
  (d !! "image_url" ∈ [None; Some None_; Some (Str [])] →
   d !! "preview_image" ∈ [None; Some None_; Some (Str [])] →
   image_url d = Str (lit "https://your-domain.com/icon.png")) ∧
  (∃ s, image_url d = Str s ∧ s ≠ []) ∧
  (∀ s t i u, main_content d = Str s → d !! "title" = Some t →
              d !! "id" = Some i → d !! "url" = Some u →
              ∃ m, create_bookmark_card d = Return m ∧
                   Card.image m = image_url d) ∧
  (∀ m, create_bookmark_card d = Return m → Card.image m = image_url d).
Proof.
  assert (∀ o : option value, o ∈ [None; Some None_; Some (Str [])] →
            truthy (default None_ o) = false) as Hfalsy.
  { intros o Ho. repeat (apply elem_of_cons in Ho as [->|Ho]; [done|]).
    by apply elem_of_nil in Ho. }
  assert (∀ m, create_bookmark_card d = Return m → Card.image m = image_url d)
    as Hcard.
  { by intros m (_ & _ & _ & _ & _ & _ & _ & _ & Him & _)%create_bookmark_card_Return. }
  split; [|split; [|split; [|split; [|split; [|done]]]]].
  - intros c s Hh. unfold image_url, or_, get. by rewrite Hh.
  - intros c s Hh Hp. unfold image_url, or_, get.
    rewrite (Hfalsy _ Hh), Hp. done.
  - intros Hh Hp. unfold image_url, or_, get.
    by rewrite (Hfalsy _ Hh), (Hfalsy _ Hp).
  - unfold image_url, or_.
    destruct (truthy (get d "image_url" None_)) eqn:Hh;
      [by apply truthy_Str|].
    destruct (truthy (get d "preview_image" None_)) eqn:Hp;
      [by apply truthy_Str|by eexists].
  - intros s t i u Hs Ht Hi Hu.
    destruct (create_bookmark_card d) as [m|e] eqn:Hm; [by exists m; auto|].
    exfalso. revert Hm. unfold create_bookmark_card, getitem.
    by rewrite (content_preview_Str d s Hs), Ht, Hi, Hu.
Qed.

Lemma image_fallback_chain_witness :
  (∃ m, create_bookmark_card Samples.with_hero = Return m ∧
        Card.image m = Str (lit "https://example.com/hero.png")) ∧
  image_url Samples.with_preview_only =
    Str (lit "https://example.com/shot.png") ∧
  image_url Samples.bare = Str (lit "https://your-domain.com/icon.png").
Proof.
  split; [|split].
  - destruct (image_fallback_chain Samples.with_hero)
      as (Hhero & _ & _ & _ & Hcard & _).
    destruct (Hcard [] (Str (lit "A")) (Str (lit "42"))
                (Str (lit "https://example.com/a")))
      as (m & Hm & Him); [vm_compute; reflexivity..|].
    exists m. split; [done|]. rewrite Him.
    apply (Hhero 104%N (lit "ttps://example.com/hero.png")).
    vm_compute; reflexivity.
  - destruct (image_fallback_chain Samples.with_preview_only)
      as (_ & Hpreview & _).
    apply (Hpreview 104%N (lit "ttps://example.com/shot.png"));
      [vm_compute; set_solver|vm_compute; reflexivity].
  - destruct (image_fallback_chain Samples.bare) as (_ & _ & Hicon & _).
    apply Hicon; vm_compute; set_solver.
Defined.

(** *** The buttons *)

(** C8, as the code has it: a card has exactly one primary button, which
    opens the edit page of the bookmark, and exactly two secondary
    buttons, the first opening the original URL and the second posting
    back the save request; styles, action types and labels are the same
    for every card. *)
Theorem card_buttons (d : dict) (m : flex_message) :
  create_bookmark_card d = Return m →
  ∃ i u, d !! "id" = Some i ∧ d !! "url" = Some u ∧
    Card.actions_of primary m =
      [uri_action (Str (lit "https://your-liff-app.com/edit/" ++ to_str i))
         edit_label] ∧
    Card.actions_of secondary m =
      [uri_action u read_label;
       postback_action (lit "save|" ++ to_str i) save_label] ∧
    Card.shape <$> Card.buttons m =
      [(primary, Card.uri, edit_label);
       (secondary, Card.uri, read_label);
       (secondary, Card.postback, save_label)].
Proof.
  intros (p & t & i & u & _ & _ & Hi & Hu & _ & _ & Hb)%create_bookmark_card_Return.
  exists i, u. unfold Card.actions_of. rewrite Hb. by repeat split.
Qed.

Lemma card_buttons_witness :
  ∃ m, create_bookmark_card Samples.bare = Return m ∧
  ∃ i u, Samples.bare !! "id" = Some i ∧ Samples.bare !! "url" = Some u ∧
    Card.actions_of primary m =
      [uri_action (Str (lit "https://your-liff-app.com/edit/" ++ to_str i))
         edit_label] ∧
    Card.actions_of secondary m =
      [uri_action u read_label;
       postback_action (lit "save|" ++ to_str i) save_label] ∧
    Card.shape <$> Card.buttons m =
      [(primary, Card.uri, edit_label);
       (secondary, Card.uri, read_label);
       (secondary, Card.postback, save_label)].
Proof.
  eexists. split; [vm_compute; reflexivity|].
  apply (card_buttons Samples.bare). vm_compute; reflexivity.
Defined.

(** C8 fails as stated: the one primary action of the card opens the edit
    page, not the original URL. *)
Lemma primary_action_opens_edit_page :
  Samples.bare !! "url" = Some (Str (lit "https://example.com/a")) ∧
  ∃ m, create_bookmark_card Samples.bare = Return m ∧
       Card.actions_of primary m =
         [uri_action (Str (lit "https://your-liff-app.com/edit/42")) edit_label] ∧
       Card.actions_of primary m ≠
         [uri_action (Str (lit "https://example.com/a")) edit_label].
Proof.
  split; [vm_compute; reflexivity|].
  eexists. split; [vm_compute; reflexivity|].
  split; [vm_compute; reflexivity|]. vm_compute. discriminate.
Qed.

(** ** URL detection *)

Section is_url_facts.

Import UrlPattern.

Lemma match_literal_Some (p s r : str) :
  match_literal p s = Some r ↔ s = p ++ r.
Proof.
  revert s. induction p as [|a p IH]; intros s; simpl.
  - split; [by intros [= ->]|by intros ->].
  - destruct s as [|b s]; [done|].
    destruct (N.eqb_spec a b) as [->|Hne].
    + rewrite IH. split; [by intros ->|by intros [= ->]].
    + split; [done|]. intros [= ? _]. by destruct Hne.
Qed.

Lemma match_literal_app (p r : str) : match_literal p (p ++ r) = Some r.
Proof. by apply match_literal_Some. Qed.

Lemma match_nonspace_plus_is_Some (s : str) :
  is_Some (match_nonspace_plus s) ↔
  ∃ c rest, s = c :: rest ∧ is_space c = false.
Proof.
  unfold match_nonspace_plus. destruct s as [|c rest]; simpl.
  - split; [by intros [? [=]]|by intros (? & ? & [=] & _)].
  - destruct (is_space c) eqn:Hc.
    + split; [by intros [? [=]]|]. intros (? & ? & [= <- <-] & ?). congruence.
    + split; [by exists c, rest|by eexists].
Qed.

Lemma match_tail_is_Some (s : str) :
  is_Some (match_tail s) ↔
  ∃ c rest, s = lit "://" ++ c :: rest ∧ is_space c = false.
Proof.
  unfold match_tail. split.
  - intros [t Ht].
    destruct (match_literal (lit "://") s) as [r|] eqn:Hr; [|done].
    apply match_literal_Some in Hr as ->. simpl in Ht.
    destruct (match_nonspace_plus r) as [run|] eqn:Hrun; [|done].
    destruct (proj1 (match_nonspace_plus_is_Some r)) as (c & rest & -> & Hc);
      [by eexists|]. by exists c, rest.
  - intros (c & rest & -> & Hc). rewrite match_literal_app. simpl.
    destruct (proj2 (match_nonspace_plus_is_Some (c :: rest))) as [run ->];
      [by exists c, rest|]. by eexists.
Qed.

Lemma match_at_http (r : str) :
  match_at (lit "http" ++ r) =
    match match_literal (lit "s") r ≫= match_tail with
    | Some t => Some (lit "https" ++ t)
    | None => t ← match_tail r; Some (lit "http" ++ t)
    end.
Proof. unfold match_at. by rewrite match_literal_app. Qed.

Lemma match_at_is_Some (s : str) :
  is_Some (match_at s) ↔
  ∃ scheme c rest,
    s = scheme ++ lit "://" ++ c :: rest ∧
    (scheme = lit "http" ∨ scheme = lit "https") ∧ is_space c = false.
Proof.
  split.
  - intros [m Hm].
    destruct (match_literal (lit "http") s) as [r|] eqn:Hr;
      [|unfold match_at in Hm; by rewrite Hr in Hm].
    apply match_literal_Some in Hr as ->. rewrite match_at_http in Hm.
    destruct (match_literal (lit "s") r) as [r'|] eqn:Hr';
      cbn [mbind option_bind] in Hm;
      [apply match_literal_Some in Hr' as ->;
       destruct (match_tail r') as [t|] eqn:Ht|].
    + destruct (proj1 (match_tail_is_Some r')) as (c & rest & -> & Hc);
        [by eexists|].
      exists (lit "https"), c, rest. by split; [|split; [right|]].
    + destruct (match_tail (lit "s" ++ r')) as [t|] eqn:Ht';
        cbn [mbind option_bind] in Hm; [|done].
      destruct (proj1 (match_tail_is_Some (lit "s" ++ r')))
        as (c & rest & Hr'' & Hc); [by eexists|].
      exists (lit "http"), c, rest. rewrite Hr''.
      by split; [|split; [left|]].
    + destruct (match_tail r) as [t|] eqn:Ht';
        cbn [mbind option_bind] in Hm; [|done].
      destruct (proj1 (match_tail_is_Some r)) as (c & rest & -> & Hc);
        [by eexists|].
      exists (lit "http"), c, rest. by split; [|split; [left|]].
  - intros (scheme & c & rest & -> & [->| ->] & Hc);
      destruct (proj2 (match_tail_is_Some (lit "://" ++ c :: rest))) as [t Ht];
      try (by exists c, rest).
    + rewrite match_at_http.
      assert (match_literal (lit "s") (lit "://" ++ c :: rest) = None) as ->
        by reflexivity.
      cbn [mbind option_bind]. rewrite Ht. by eexists.
    + change (lit "https" ++ lit "://" ++ c :: rest)
        with (lit "http" ++ lit "s" ++ lit "://" ++ c :: rest).
      rewrite match_at_http, match_literal_app.
      cbn [mbind option_bind]. rewrite Ht. by eexists.
Qed.

Lemma search_is_Some (s : str) :
  is_Some (search s) ↔ ∃ pre suf, s = pre ++ suf ∧ is_Some (match_at suf).
Proof.
  induction s as [|c s IH].
  - simpl. destruct (match_at []) as [m|] eqn:Hm.
    + split; [|by eexists]. intros _. exists [], []. by rewrite Hm.
    + split; [by intros [? [=]]|].
      intros (pre & suf & Hs & Hsuf).
      symmetry in Hs. apply app_eq_nil in Hs as [_ ->].
      rewrite Hm in Hsuf. by destruct Hsuf.
  - simpl. destruct (match_at (c :: s)) as [m|] eqn:Hm.
    + split; [|by eexists]. intros _. exists [], (c :: s). by rewrite Hm.
    + rewrite IH. split.
      * intros (pre & suf & -> & Hsuf). by exists (c :: pre), suf.
      * intros ([|c' pre] & suf & Hs & Hsuf).
        -- simpl in Hs. subst suf. rewrite Hm in Hsuf. by destruct Hsuf.
        -- injection Hs as <- ->. by exists pre, suf.
Qed.

(** The matches of the pattern are none exactly when [re.search] finds
    none. *)
Lemma findall_nil (s : str) :
  SpecExtractor.findall 0 s = [] ↔ search s = None.
Proof.
  induction s as [|c s IH]; simpl.
  - by destruct (match_at []).
  - destruct (match_at (c :: s)); [done|]. apply IH.
Qed.

Lemma distinct_nil (seen l : list str) :
  SpecExtractor.distinct seen l = [] → ∀ x, x ∈ l → x ∈ seen.
Proof.
  revert seen. induction l as [|y l IH]; intros seen; simpl.
  - intros _ x Hx. by apply elem_of_nil in Hx.
  - destruct (decide (y ∈ seen)); [|done].
    intros H x [->|Hx]%elem_of_cons; [done|]. by apply IH.
Qed.

Lemma extract_urls_nil (text : str) :
  SpecExtractor.extract_urls text = [] ↔ search text = None.
Proof.
  unfold SpecExtractor.extract_urls, SpecExtractor.max_urls.
  rewrite <- findall_nil. split.
  - intros H.
    destruct (SpecExtractor.findall 0 text) as [|x l] eqn:Hf; [done|].
    assert (SpecExtractor.distinct [] (x :: l) = []) as Hd.
    { by destruct (SpecExtractor.distinct [] (x :: l)). }
    assert (x ∈ []) as Hx%elem_of_nil by (apply (distinct_nil _ _ Hd); left).
    done.
  - by intros ->.
Qed.

End is_url_facts.

(** The white space characters up to U+3000, as [re] has them. *)
Example is_space_table :
  filter (λ c, UrlPattern.is_space c = true) (N.of_nat <$> seq 0 (N.to_nat 12290)) =
  [9; 10; 11; 12; 13; 28; 29; 30; 31; 32; 133; 160; 5760;
   8192; 8193; 8194; 8195; 8196; 8197; 8198; 8199; 8200; 8201; 8202;
   8232; 8233; 8239; 8287; 12288]%N.
Proof. vm_compute; reflexivity. Qed.

Example is_url_plain : is_url (lit "hello world") = false.
Proof. vm_compute; reflexivity. Qed.

Example is_url_ftp : is_url (lit "ftp://files.example/a") = false.
Proof. vm_compute; reflexivity. Qed.

Example is_url_bare_scheme : is_url (lit "http:// ") = false.
Proof. vm_compute; reflexivity. Qed.

Example is_url_inside : is_url Samples.message_a = true.
Proof. vm_compute; reflexivity. Qed.

Example extract_urls_many :
  SpecExtractor.extract_urls Samples.message_many =
    [lit "https://a.io"; lit "http://b.io"; lit "https://c.io"].
Proof. vm_compute; reflexivity. Qed.

(** C3, as the code has it: [is_url] returns a truth value, not a
    sequence.  It is true exactly when the text contains [http://] or
    [https://] followed by at least one character that is not white
    space, which is exactly when the extraction of the specification
    would not be empty; a text without such a link, or with links of
    other schemes only, gives false. *)
Theorem is_url_detects (text : str) :
  (is_url text = true ↔
   ∃ pre scheme c rest,
     text = pre ++ scheme ++ lit "://" ++ c :: rest ∧
     (scheme = lit "http" ∨ scheme = lit "https") ∧
     UrlPattern.is_space c = false) ∧
  (is_url text = false ↔ SpecExtractor.extract_urls text = []).
Proof.
  unfold is_url. split.
  - rewrite bool_decide_eq_true, search_is_Some. split.
    + intros (pre & suf & -> & Hsuf).
      apply match_at_is_Some in Hsuf as (scheme & c & rest & -> & Hs & Hc).
      by exists pre, scheme, c, rest.
    + intros (pre & scheme & c & rest & -> & Hs & Hc).
      exists pre, (scheme ++ lit "://" ++ c :: rest). split; [done|].
      apply match_at_is_Some. by exists scheme, c, rest.
  - rewrite bool_decide_eq_false, extract_urls_nil.
    destruct (UrlPattern.search text); split; try done.
    intros H. by destruct H.
Qed.

(** C3 fails as stated: two messages with different links get the same
    result, so the result is not the sequence of links of the message. *)
Lemma is_url_is_not_an_extraction :
  is_url Samples.message_a = is_url Samples.message_b ∧
  SpecExtractor.extract_urls Samples.message_a = [lit "https://a.example/x"] ∧
  SpecExtractor.extract_urls Samples.message_b = [lit "https://b.example/y"] ∧
  ¬ ∃ urls_of : bool → list str,
      urls_of (is_url Samples.message_a) =
        SpecExtractor.extract_urls Samples.message_a ∧
      urls_of (is_url Samples.message_b) =
        SpecExtractor.extract_urls Samples.message_b.
Proof.
  assert (is_url Samples.message_a = true) as Ha by (vm_compute; reflexivity).
  assert (is_url Samples.message_b = true) as Hb by (vm_compute; reflexivity).
  assert (SpecExtractor.extract_urls Samples.message_a = [lit "https://a.example/x"])
    as Hxa by (vm_compute; reflexivity).
  assert (SpecExtractor.extract_urls Samples.message_b = [lit "https://b.example/y"])
    as Hxb by (vm_compute; reflexivity).
  split; [by rewrite Ha, Hb|]. split; [done|]. split; [done|].
  intros (urls_of & H1 & H2). rewrite Ha, Hxa in H1. rewrite Hb, Hxb, H1 in H2.
  vm_compute in H2. discriminate.
Qed.

(** ** The summarizer *)

Import CrawlerService.

Example generate_summary_short :
  generate_summary (lit "short text") default_max_length = lit "short text".
Proof. vm_compute; reflexivity. Qed.

Example generate_summary_negative :
  generate_summary (lit "abcdefgh") (-3) = lit "abcde...".
Proof. vm_compute; reflexivity. Qed.

(** C9, as the code has it: [generate_summary] always returns, and what
    it returns is decided by the lengths alone: the content itself when
    it has at most [max_length] characters, and otherwise the slice
    [content[:max_length]] followed by ["..."].  No abstract is produced
    and nothing is raised. *)
Theorem generate_summary_truncates (content : str) (max_length : Z) :
  ((Z.of_nat (length content) ≤ max_length)%Z →
   generate_summary content max_length = content) ∧
  ((0 ≤ max_length < Z.of_nat (length content))%Z →
   generate_summary content max_length =
     take (Z.to_nat max_length) content ++ lit "...") ∧
  ((max_length < 0)%Z →
   generate_summary content max_length =
     take (length content - Z.to_nat (- max_length)) content ++ lit "...").
Proof.
  unfold generate_summary, slice_to. repeat split; intros H.
  - destruct (Z.ltb_spec max_length (Z.of_nat (length content))); [lia|done].
  - destruct (Z.ltb_spec max_length (Z.of_nat (length content))); [|lia].
    destruct (Z.ltb_spec max_length 0); [lia|done].
  - destruct (Z.ltb_spec max_length (Z.of_nat (length content))); [|lia].
    destruct (Z.ltb_spec max_length 0); [|lia].
    do 2 f_equal. lia.
Qed.

Lemma generate_summary_truncates_witness :
  generate_summary (replicate 201 97%N) 200 =
    take 200 (replicate 201 97%N) ++ lit "...".
Proof.
  apply (proj1 (proj2 (generate_summary_truncates (replicate 201 97%N) 200))).
  vm_compute. split; [discriminate|reflexivity].
Defined.

(** C9 fails as stated: on a content longer than the bound the summarizer
    returns the truncated content, and does not fail. *)
Lemma generate_summary_is_truncation :
  generate_summary (lit "abcdef") 3 = lit "abc" ++ lit "..." ∧
  generate_summary (replicate 201 97%N) default_max_length =
    replicate 200 97%N ++ lit "...".
Proof. split; vm_compute; reflexivity. Qed.

(** ** Saving a bookmark *)

Section create_bookmark_facts.

Import Main.

(** The 400 of a failed crawl leaves the endpoint as a 500. *)
Lemma create_bookmark_crawl_failed url user_id run env table :
  success (extract_page_data run) = false →
  create_bookmark url user_id run env table =
    (Raise (HTTPException 500 (StrOf (HTTPException 400 (Text cannot_process)))),
     table).
Proof.
  unfold create_bookmark, create_bookmark_try.
  by destruct (extract_page_data run).
Qed.

(** Every exception leaves the table as it was. *)
Lemma create_bookmark_Raise url user_id run env table e table' :
  create_bookmark url user_id run env table = (Raise e, table') →
  table' = table ∧ ∃ cause, e = HTTPException 500 (StrOf cause).
Proof.
  unfold create_bookmark.
  destruct (create_bookmark_try url user_id run env table) as [[row t]|cause];
    [discriminate|].
  intros [= <- <-]. split; [done|by eexists].
Qed.

Lemma insert_Return env (data : dict) table row table' :
  insert env data table = Return (row, table') →
  table' = table ++ [row] ∧
  id row = gen_random_uuid env ∧ (id row ∉ (id <$> table)) ∧
  Str (url row) = get data "url" None_ ∧
  user_id row = get data "user_id" None_ ∧
  created_at row = now env ∧ updated_at row = now env.
Proof.
  unfold insert. destruct (refused env); [done|].
  destruct (get data "url" None_) as [|u]; [done|].
  destruct (decide (gen_random_uuid env ∈ id <$> table)); [done|].
  by intros [= <- <-].
Qed.

(** A returned row is a new last row of the table, for the owner and the
    URL of the request, under an [id] no other row has. *)
Lemma create_bookmark_Return url user_id run env table row table' :
  create_bookmark url user_id run env table = (Return row, table') →
  table' = table ++ [row] ∧
  id row = gen_random_uuid env ∧ (id row ∉ (id <$> table)) ∧
  Main.url row = url ∧ Main.user_id row = Str user_id ∧
  created_at row = now env ∧ updated_at row = now env.
Proof.
  unfold create_bookmark.
  destruct (create_bookmark_try url user_id run env table)
    as [[row0 t]|cause] eqn:Htry; intros [= <- <-].
  unfold create_bookmark_try in Htry.
  destruct (extract_page_data run) as [page_data raw| |]; [|done..].
  unfold getitem in Htry.
  destruct (page_data !! "title"); [|done].
  destruct (page_data !! "description"); [|done].
  destruct (page_data !! "content_markdown"); [|done].
  destruct (page_data !! "main_image"); [|done].
  cbn [mbind result_bind] in Htry.
  apply insert_Return in Htry as (-> & Hid & Hfresh & Hurl & Huser & Hc & Hu).
  unfold get in Hurl, Huser.
  rewrite lookup_insert_ne, lookup_insert_eq in Hurl by done.
  rewrite lookup_insert_eq in Huser.
  by injection Hurl as ->.
Qed.

Lemma rows_of_app owner u (t1 t2 : list bookmark) :
  rows_of owner u (t1 ++ t2) = rows_of owner u t1 ++ rows_of owner u t2.
Proof. apply filter_app. Qed.

End create_bookmark_facts.

Import Main.

Example create_bookmark_fine :
  ∃ row, create_bookmark Samples.link Samples.owner Samples.crawl_fine
           Samples.first_insert [] = (Return row, [row]) ∧
         title row = Str (lit "A") ∧ image_url row = None_ ∧
         folder_id row = None_ ∧ created_at row = 1000%N.
Proof. eexists. split; [vm_compute; reflexivity|]. by repeat split. Qed.

Example create_bookmark_missing_key :
  create_bookmark Samples.link Samples.owner
    (run_successful (<["title" := Str (lit "A")]> ∅) []) Samples.first_insert [] =
  (Raise (HTTPException 500 (StrOf (KeyError "description"))), []).
Proof. vm_compute; reflexivity. Qed.

(** C1, as the code has it: every successful save inserts a row of its
    own, under a new [id]; nothing is looked up or updated.  Saving the
    same URL twice for the same owner leaves the earlier rows as they
    were and adds two rows for that owner and URL, with different [id]s. *)
Theorem create_bookmark_twice url user_id run1 env1 run2 env2
    table row1 table1 row2 table2 :
  create_bookmark url user_id run1 env1 table = (Return row1, table1) →
  create_bookmark url user_id run2 env2 table1 = (Return row2, table2) →
  table2 = table ++ [row1; row2] ∧
  id row1 ≠ id row2 ∧
  (id row1 ∉ (id <$> table)) ∧ (id row2 ∉ (id <$> table)) ∧
  length (rows_of user_id url table2) =
    length (rows_of user_id url table) + 2.
Proof.
  intros (-> & Hid1 & Hf1 & Hu1 & Ho1 & _)%create_bookmark_Return
         (-> & Hid2 & Hf2 & Hu2 & Ho2 & _)%create_bookmark_Return.
  rewrite fmap_app, elem_of_app in Hf2. simpl in Hf2.
  split; [by rewrite <- app_assoc|].
  split; [intros Heq; apply Hf2; right; rewrite Heq; left|].
  split; [done|]. split; [tauto|].
  rewrite !rows_of_app, !length_app.
  unfold rows_of at 2 3. rewrite !filter_cons_True by done.
  rewrite filter_nil. simpl. lia.
Qed.

Lemma create_bookmark_twice_witness :
  ∃ row1 table1 row2 table2,
    create_bookmark Samples.link Samples.owner Samples.crawl_fine
      Samples.first_insert [] = (Return row1, table1) ∧
    create_bookmark Samples.link Samples.owner Samples.crawl_fine
      Samples.second_insert table1 = (Return row2, table2) ∧
    table2 = [] ++ [row1; row2] ∧
    id row1 ≠ id row2 ∧
    (id row1 ∉ (id <$> [])) ∧ (id row2 ∉ (id <$> [])) ∧
    length (rows_of Samples.owner Samples.link table2) =
      length (rows_of Samples.owner Samples.link []) + 2.
Proof.
  do 4 eexists.
  split; [vm_compute; reflexivity|]. split; [vm_compute; reflexivity|].
  eapply (create_bookmark_twice Samples.link Samples.owner
            Samples.crawl_fine Samples.first_insert
            Samples.crawl_fine Samples.second_insert []);
    vm_compute; reflexivity.
Defined.

(** C1 fails as stated: after saving the same URL twice for the same
    owner the table holds two rows for them, not one, and the first row
    is as it was inserted. *)
Lemma same_url_twice_two_rows :
  ∃ row1 row2,
    create_bookmark Samples.link Samples.owner Samples.crawl_fine
      Samples.first_insert [] = (Return row1, [row1]) ∧
    create_bookmark Samples.link Samples.owner Samples.crawl_fine
      Samples.second_insert [row1] = (Return row2, [row1; row2]) ∧
    rows_of Samples.owner Samples.link [row1; row2] = [row1; row2] ∧
    length (rows_of Samples.owner Samples.link [row1; row2]) ≠ 1 ∧
    id row1 ≠ id row2 ∧
    updated_at row1 = 1000%N.
Proof.
  do 2 eexists.
  split; [vm_compute; reflexivity|]. split; [vm_compute; reflexivity|].
  split; [vm_compute; reflexivity|]. split; [vm_compute; discriminate|].
  split; [vm_compute; discriminate|reflexivity].
Qed.

(** C2, as the code has it: when the crawl of the link does not succeed,
    [create_bookmark] ends with an [HTTPException] raised to the caller;
    no row is inserted, the table is as it was. *)
Theorem create_bookmark_fetch_failure url user_id run env table :
  success (extract_page_data run) = false →
  ∃ status_code detail,
    create_bookmark url user_id run env table =
      (Raise (HTTPException status_code detail), table).
Proof.
  intros H. rewrite create_bookmark_crawl_failed by done. by do 2 eexists.
Qed.

Lemma create_bookmark_fetch_failure_witness :
  ∃ status_code detail,
    create_bookmark Samples.link Samples.owner Samples.crawl_timeout
      Samples.first_insert [] =
      (Raise (HTTPException status_code detail), []).
Proof.
  apply (create_bookmark_fetch_failure Samples.link Samples.owner
           Samples.crawl_timeout Samples.first_insert []).
  reflexivity.
Defined.

(** C2 fails as stated: a crawl that times out makes the request fail,
    and no bookmark is persisted. *)
Lemma fetch_failure_is_request_failure :
  extract_page_data Samples.crawl_timeout =
    crawl_failed (StrOf (Exception_ "Timeout 60000ms exceeded")) ∧
  create_bookmark Samples.link Samples.owner Samples.crawl_timeout
    Samples.first_insert [] =
    (Raise (HTTPException 500
              (StrOf (HTTPException 400 (Text cannot_process)))), []).
Proof. split; vm_compute; reflexivity. Qed.

(** ** The subscription form *)

Import InsightHub.

Example handleSubscription_complete :
  handleSubscription Samples.form_complete
    "2025-06-15T08:30:00.000Z" "2025-06-15T08:30:00.001Z" Samples.fresh_page =
  let u := {| email := Some "a@b.c"; frequency := Some "weekly";
              topics := ["AI"; "ESG"]; subscriptionDate := "2025-06-15";
              status := "active" |} in
  {| currentUser := Some u;
     newsletterUser := Some u;
     effects := [
       fetch_post webhook_endpoint
         {| body_email := Some "a@b.c"; body_topics := ["AI"; "ESG"];
            body_frequency := Some "weekly";
            body_subscriptionDate := "2025-06-15T08:30:00.001Z";
            body_source := "insight_hub_web" |};
       showSuccessToast;
       renderDashboard (Some u);
       setTimeout_scrollToSection "dashboard" 1000 ] |}.
Proof. vm_compute; reflexivity. Qed.

Example handleSubscription_no_email :
  handleSubscription Samples.form_no_email "" "" Samples.fresh_page =
  {| currentUser := None; newsletterUser := None;
     effects := [alert required_fields_message] |}.
Proof. vm_compute; reflexivity. Qed.

(** C10: when the address of the form is missing or empty, or no topic is
    selected, [handleSubscription] keeps [currentUser] and the saved user
    as they were; the only thing it does is the alert, so there is no
    webhook request, no toast and no rendering of the dashboard. *)
Theorem handleSubscription_incomplete form iso1 iso2 st :
  get_email form = None ∨ get_email form = Some "" ∨ getAll_topics form = [] →
  currentUser (handleSubscription form iso1 iso2 st) = currentUser st ∧
  newsletterUser (handleSubscription form iso1 iso2 st) = newsletterUser st ∧
  effects (handleSubscription form iso1 iso2 st) =
    effects st ++ [alert required_fields_message].
Proof.
  intros H. unfold handleSubscription.
  assert (not_ (get_email form)
          || bool_decide (length (getAll_topics form) = 0) = true) as ->; [|done].
  destruct H as [->|[->| ->]]; [done..|].
  by rewrite orb_true_r.
Qed.

Lemma handleSubscription_incomplete_witness :
  currentUser (handleSubscription Samples.form_no_topic "" "" Samples.fresh_page)
    = currentUser Samples.fresh_page ∧
  newsletterUser (handleSubscription Samples.form_no_topic "" "" Samples.fresh_page)
    = newsletterUser Samples.fresh_page ∧
  effects (handleSubscription Samples.form_no_topic "" "" Samples.fresh_page) =
    effects Samples.fresh_page ++ [alert required_fields_message].
Proof.
  apply (handleSubscription_incomplete Samples.form_no_topic "" ""
           Samples.fresh_page).
  right. right. reflexivity.
Defined.

(** * Further properties of the card composer *)

Section create_bookmark_card_more.

(** The keys [create_bookmark_card] reads. *)
Lemma create_bookmark_card_ext (d1 d2 : dict) :
  (∀ k, k ∈ ["content_markdown"; "description"; "image_url"; "preview_image";
             "title"; "id"; "url"] → d1 !! k = d2 !! k) →
  create_bookmark_card d1 = create_bookmark_card d2.
Proof.
  intros H.
  unfold create_bookmark_card, content_preview, main_content,
    LineService.image_url, getitem, get.
  rewrite !(H "content_markdown"), !(H "description"), !(H "image_url"),
    !(H "preview_image"), !(H "title"), !(H "id"), !(H "url");
    [done|set_solver..].
Qed.

(** X1: a card is returned exactly when the main content is a string
    (not [None]) and the bookmark has its [title], [id] and [url] keys. *)
Theorem create_bookmark_card_Return_iff (d : dict) :
  (∃ m, create_bookmark_card d = Return m) ↔
  (∃ s, main_content d = Str s) ∧
  is_Some (d !! "title") ∧ is_Some (d !! "id") ∧ is_Some (d !! "url").
Proof.
  split.
  - intros [m (p & t & i & u & Hp & Ht & Hi & Hu & _)%create_bookmark_card_Return].
    apply content_preview_Return in Hp as (s & Hs & _).
    split; [by exists s|]. by rewrite Ht, Hi, Hu.
  - intros ([s Hs] & [t Ht] & [i Hi] & [u Hu]).
    unfold create_bookmark_card, getitem.
    rewrite (content_preview_Str d s Hs), Ht, Hi, Hu. by eexists.
Qed.

(** X2: which exception is raised.  A main content that is [None] gives
    a [TypeError], whatever else is missing; otherwise the first missing
    key among [title], [id], [url], in this order, gives its [KeyError]. *)
Theorem create_bookmark_card_Raise (d : dict) :
  (main_content d = None_ →
   create_bookmark_card d =
     Raise (TypeError "object of type 'NoneType' has no len()")) ∧
  (∀ s, main_content d = Str s → d !! "title" = None →
   create_bookmark_card d = Raise (KeyError "title")) ∧
  (∀ s, main_content d = Str s → is_Some (d !! "title") → d !! "id" = None →
   create_bookmark_card d = Raise (KeyError "id")) ∧
  (∀ s, main_content d = Str s → is_Some (d !! "title") →
   is_Some (d !! "id") → d !! "url" = None →
   create_bookmark_card d = Raise (KeyError "url")).
Proof.
  unfold create_bookmark_card, getitem. split; [|split; [|split]].
  - intros Hm. unfold content_preview. by rewrite Hm.
  - intros s Hs Ht. by rewrite (content_preview_Str d s Hs), Ht.
  - intros s Hs [t Ht] Hi. by rewrite (content_preview_Str d s Hs), Ht, Hi.
  - intros s Hs [t Ht] [i Hi] Hu.
    by rewrite (content_preview_Str d s Hs), Ht, Hi, Hu.
Qed.

Lemma create_bookmark_card_Raise_witness :
  create_bookmark_card (delete "url" Samples.bare) = Raise (KeyError "url").
Proof.
  apply (proj2 (proj2 (proj2
           (create_bookmark_card_Raise (delete "url" Samples.bare)))) []);
    vm_compute; eauto.
Defined.

(** X3: the card depends on the seven keys the composer reads and on
    nothing else: setting or removing any other key of the bookmark
    changes neither the card nor the exception. *)
Theorem create_bookmark_card_other_keys (d : dict) (k : string) (v : value) :
  k ∉ ["content_markdown"; "description"; "image_url"; "preview_image";
       "title"; "id"; "url"] →
  create_bookmark_card (<[k := v]> d) = create_bookmark_card d ∧
  create_bookmark_card (delete k d) = create_bookmark_card d.
Proof.
  intros Hk. split; apply create_bookmark_card_ext; intros k' Hk'.
  - apply lookup_insert_ne. by intros ->.
  - apply lookup_delete_ne. by intros ->.
Qed.

Lemma create_bookmark_card_other_keys_witness :
  create_bookmark_card (<["notes" := Str (lit "read later")]> Samples.bare) =
    create_bookmark_card Samples.bare ∧
  create_bookmark_card (delete "notes" Samples.bare) =
    create_bookmark_card Samples.bare.
Proof.
  apply (create_bookmark_card_other_keys Samples.bare "notes").
  vm_compute. intros H. repeat (apply elem_of_cons in H as [H|H]; [discriminate|]).
  by apply elem_of_nil in H.
Defined.

(** X4: the alternative text of a card is the clipboard sign, a space and
    the title as [str] prints it, so a title that is [None] reads
    ["None"] there, while the title line of the body carries the title
    as it is. *)
Theorem create_bookmark_card_altText (d : dict) (m : flex_message) :
  create_bookmark_card d = Return m →
  ∃ t, d !! "title" = Some t ∧ Card.title m = Some t ∧
       altText m = [128203; 32]%N ++ to_str t ∧
       (t = None_ → altText m = [128203; 32; 78; 111; 110; 101]%N) ∧
       2 ≤ length (altText m).
Proof.
  unfold create_bookmark_card, getitem.
  destruct (content_preview d) as [p|e]; [|discriminate].
  cbn [mbind result_bind].
  destruct (d !! "title") as [t|]; [|discriminate]. cbn [mbind result_bind].
  destruct (d !! "id") as [i|]; [|discriminate]. cbn [mbind result_bind].
  destruct (d !! "url") as [u|]; [|discriminate]. cbn [mbind result_bind].
  intros [= <-]. exists t. split; [done|]. split; [done|]. split; [done|].
  split; [by intros ->|]. cbn [altText length]. lia.
Qed.

Lemma create_bookmark_card_altText_witness :
  ∃ m, create_bookmark_card (<["title" := None_]> Samples.bare : dict) = Return m ∧
       altText m = [128203; 32; 78; 111; 110; 101]%N.
Proof.
  pose proof (create_bookmark_card_altText
                (<["title" := None_]> Samples.bare)) as H.
  eexists. split; [vm_compute; reflexivity|].
  edestruct H as (t & Ht & _ & _ & Hn & _); [vm_compute; reflexivity|].
  apply Hn. vm_compute in Ht. congruence.
Defined.

End create_bookmark_card_more.

(** * Further properties of the summarizer *)

Section generate_summary_more.

Lemma generate_summary_within (content : str) (max_length : Z) :
  (Z.of_nat (length content) ≤ max_length)%Z →
  generate_summary content max_length = content.
Proof.
  intros H. unfold generate_summary.
  by destruct (Z.ltb_spec max_length (Z.of_nat (length content))); [lia|].
Qed.

Lemma generate_summary_beyond (content : str) (max_length : Z) :
  (0 ≤ max_length < Z.of_nat (length content))%Z →
  generate_summary content max_length =
    take (Z.to_nat max_length) content ++ lit "...".
Proof.
  intros H. unfold generate_summary, slice_to.
  destruct (Z.ltb_spec max_length (Z.of_nat (length content))); [|lia].
  by destruct (Z.ltb_spec max_length 0); [lia|].
Qed.

(** X5: with a bound that is not negative, a summary has at most
    [max_length + 3] characters; a content of more than [max_length]
    characters gives exactly [max_length + 3], so a content of
    [max_length + 1] or [max_length + 2] characters gets a summary longer
    than itself. *)
Theorem generate_summary_length (content : str) (max_length : Z) :
  (0 ≤ max_length)%Z →
  length (generate_summary content max_length) ≤ Z.to_nat max_length + 3 ∧
  ((max_length < Z.of_nat (length content))%Z →
   length (generate_summary content max_length) = Z.to_nat max_length + 3).
Proof.
  intros Hm.
  destruct (Z.lt_ge_cases max_length (Z.of_nat (length content))) as [Hlt|Hge].
  - rewrite generate_summary_beyond by lia.
    rewrite length_app, length_take. change (length (lit "...")) with 3.
    split; [lia|]. intros _. lia.
  - rewrite generate_summary_within by lia. split; lia.
Qed.

Lemma generate_summary_length_witness :
  length (generate_summary (replicate 201 97%N) 200) ≤ Z.to_nat 200 + 3 ∧
  ((200 < Z.of_nat (length (replicate 201 97%N)))%Z →
   length (generate_summary (replicate 201 97%N) 200) = Z.to_nat 200 + 3).
Proof.
  apply (generate_summary_length (replicate 201 97%N) 200). lia.
Defined.

(** X6: with a bound that is not negative, summarizing a summary again
    with the same bound gives it back unchanged. *)
Theorem generate_summary_idempotent (content : str) (max_length : Z) :
  (0 ≤ max_length)%Z →
  generate_summary (generate_summary content max_length) max_length =
    generate_summary content max_length.
Proof.
  intros Hm.
  destruct (Z.lt_ge_cases max_length (Z.of_nat (length content))) as [Hlt|Hge].
  - rewrite (generate_summary_beyond content) by lia.
    rewrite generate_summary_beyond.
    + by rewrite take_app_length'
        by (rewrite length_take; lia).
    + rewrite length_app, length_take. change (length (lit "...")) with 3. lia.
  - rewrite (generate_summary_within content) by lia.
    by apply generate_summary_within.
Qed.

Lemma generate_summary_idempotent_witness :
  generate_summary (generate_summary (lit "abcdefgh") 5) 5 =
    generate_summary (lit "abcdefgh") 5.
Proof. apply (generate_summary_idempotent (lit "abcdefgh") 5). lia. Defined.

(** With a negative bound this fails: the second pass cuts into the
    dots of the first. *)
Example generate_summary_negative_twice :
  generate_summary (lit "abcdefgh") (-1) = lit "abcdefg..." ∧
  generate_summary (lit "abcdefg...") (-1) = lit "abcdefg.....".
Proof. split; vm_compute; reflexivity. Qed.

(** X7: with a bound that is not negative, the summary and the content
    agree on their first [max_length] characters, and a content that is
    cut ends in the three dots. *)
Theorem generate_summary_prefix (content : str) (max_length : Z) :
  (0 ≤ max_length)%Z →
  take (Z.to_nat max_length) (generate_summary content max_length) =
    take (Z.to_nat max_length) content ∧
  ((max_length < Z.of_nat (length content))%Z →
   drop (Z.to_nat max_length) (generate_summary content max_length) = lit "...").
Proof.
  intros Hm.
  destruct (Z.lt_ge_cases max_length (Z.of_nat (length content))) as [Hlt|Hge].
  - rewrite generate_summary_beyond by lia.
    assert (length (take (Z.to_nat max_length) content) = Z.to_nat max_length)
      as Hlen by (rewrite length_take; lia).
    split; [by rewrite take_app_length'|]. intros _.
    by rewrite drop_app_length'.
  - rewrite generate_summary_within by lia. split; [done|lia].
Qed.

Lemma generate_summary_prefix_witness :
  take (Z.to_nat 5) (generate_summary (lit "abcdefgh") 5) =
    take (Z.to_nat 5) (lit "abcdefgh") ∧
  ((5 < Z.of_nat (length (lit "abcdefgh")))%Z →
   drop (Z.to_nat 5) (generate_summary (lit "abcdefgh") 5) = lit "...").
Proof. apply (generate_summary_prefix (lit "abcdefgh") 5). lia. Defined.

End generate_summary_more.

(** * Further properties of URL detection *)

Section is_url_more.

(** X8: a link stays detected inside a longer message: when [is_url]
    holds of a text, it holds of that text with anything before and
    after it. *)
Theorem is_url_surrounded (before text after : str) :
  is_url text = true → is_url (before ++ text ++ after) = true.
Proof.
  unfold is_url. rewrite !bool_decide_eq_true, !search_is_Some.
  intros (pre & suf & -> & Hsuf).
  apply match_at_is_Some in Hsuf as (scheme & c & rest & -> & Hs & Hc).
  exists (before ++ pre), (scheme ++ lit "://" ++ c :: rest ++ after).
  split; [by rewrite <- !app_assoc|].
  apply match_at_is_Some. by exists scheme, c, (rest ++ after).
Qed.

Lemma is_url_surrounded_witness :
  is_url (lit "read " ++ lit "http://a.io" ++ lit " today") = true.
Proof.
  apply (is_url_surrounded (lit "read ") (lit "http://a.io") (lit " today")).
  vm_compute; reflexivity.
Defined.

(** X9: the pattern is case sensitive and needs its punctuation: a text
    without a lower-case [h], without a colon or without a slash is never
    a URL. *)
Theorem is_url_needs (text : str) :
  104%N ∉ text ∨ 58%N ∉ text ∨ 47%N ∉ text → is_url text = false.
Proof.
  intros H. destruct (is_url text) eqn:Hu; [|done]. exfalso.
  unfold is_url in Hu. rewrite bool_decide_eq_true, search_is_Some in Hu.
  destruct Hu as (pre & suf & -> & Hsuf).
  apply match_at_is_Some in Hsuf as (scheme & c & rest & -> & Hs & _).
  assert (104%N ∈ scheme) as Hh by (destruct Hs as [->| ->]; vm_compute; left).
  destruct H as [H|[H|H]]; apply H; rewrite !elem_of_app.
  - right; by left.
  - right; right; left. vm_compute. left.
  - right; right; left. vm_compute. right. left.
Qed.

Lemma is_url_needs_witness : is_url (lit "HTTP://EXAMPLE.COM") = false.
Proof.
  apply (is_url_needs (lit "HTTP://EXAMPLE.COM")). left.
  vm_compute. intros H.
  repeat (apply elem_of_cons in H as [H|H]; [discriminate|]).
  by apply elem_of_nil in H.
Defined.

End is_url_more.

(** * Further properties of saving a bookmark *)

Section create_bookmark_more.

(** The body of the [try], when the crawl has succeeded. *)
Lemma create_bookmark_try_ok url user_id run env table page raw t d c i :
  extract_page_data run = crawl_ok page raw →
  page !! "title" = Some t → page !! "description" = Some d →
  page !! "content_markdown" = Some c → page !! "main_image" = Some i →
  create_bookmark_try url user_id run env table =
    insert env
      (<["user_id" := Str user_id]>
       (<["url" := Str url]>
       (<["title" := t]>
       (<["description" := d]>
       (<["content_markdown" := c]>
       (<["image_url" := i]> ∅)))))) table.
Proof.
  intros Hrun Ht Hd Hc Hi. unfold create_bookmark_try, getitem.
  by rewrite Hrun, Ht, Hd, Hc, Hi.
Qed.

Lemma insert_accepts env (data : dict) table u :
  refused env = None → data !! "url" = Some (Str u) →
  gen_random_uuid env ∉ (id <$> table) →
  ∃ row, insert env data table = Return (row, table ++ [row]).
Proof.
  intros Href Hu Hid. unfold insert, get. rewrite Href, Hu. simpl.
  rewrite decide_False by done. by eexists.
Qed.

(** X10: a call of [create_bookmark] either appends the one row it
    returns or, when it raises, leaves the table as it was; no row that
    was there is changed or removed. *)
Theorem create_bookmark_appends url user_id run env table response table' :
  create_bookmark url user_id run env table = (response, table') →
  match response with
  | Return row => table' = table ++ [row]
  | Raise _ => table' = table
  end.
Proof.
  destruct response as [row|e]; intros H.
  - by apply create_bookmark_Return in H as (-> & _).
  - by apply create_bookmark_Raise in H as (-> & _).
Qed.

Lemma create_bookmark_appends_witness :
  match fst (create_bookmark Samples.link Samples.owner Samples.crawl_fine
               Samples.first_insert []) with
  | Return row =>
      snd (create_bookmark Samples.link Samples.owner Samples.crawl_fine
             Samples.first_insert []) = [] ++ [row]
  | Raise _ =>
      snd (create_bookmark Samples.link Samples.owner Samples.crawl_fine
             Samples.first_insert []) = []
  end.
Proof.
  apply (create_bookmark_appends Samples.link Samples.owner Samples.crawl_fine
           Samples.first_insert []).
  vm_compute; reflexivity.
Defined.



(** X12: [create_bookmark] returns a row exactly when the crawl
    succeeded, the extracted data has the four keys [title],
    [description], [content_markdown] and [main_image], the database does
    not refuse the statement, and the generated [id] is not in the table
    yet. *)
Theorem create_bookmark_Return_iff url user_id run env table :
  (∃ row table', create_bookmark url user_id run env table = (Return row, table')) ↔
  (∃ page raw, extract_page_data run = crawl_ok page raw ∧
     is_Some (page !! "title") ∧ is_Some (page !! "description") ∧
     is_Some (page !! "content_markdown") ∧ is_Some (page !! "main_image")) ∧
  refused env = None ∧
  gen_random_uuid env ∉ (id <$> table).
Proof.
  unfold create_bookmark. split.
  - intros (row & table' & H).
    destruct (create_bookmark_try url user_id run env table)
      as [[row0 t0]|e] eqn:Htry; [|done].
    unfold create_bookmark_try, getitem in Htry.
    destruct (extract_page_data run) as [page raw| |]; [|done..].
    destruct (page !! "title") eqn:Ht; [|done].
    destruct (page !! "description") eqn:Hd; [|done].
    destruct (page !! "content_markdown") eqn:Hc; [|done].
    destruct (page !! "main_image") eqn:Hi; [|done].
    cbn [mbind result_bind] in Htry. unfold insert in Htry.
    destruct (refused env); [done|].
    destruct (get _ "url" None_); [done|].
    destruct (decide (gen_random_uuid env ∈ id <$> table)); [done|].
    split; [|done]. exists page, raw. rewrite Ht, Hd, Hc, Hi.
    split; [done|]. repeat split; eauto.
  - intros ((page & raw & Hrun & [t Ht] & [d Hd] & [c Hc] & [i Hi]) & Href & Hid).
    rewrite (create_bookmark_try_ok _ _ _ _ _ _ _ _ _ _ _ Hrun Ht Hd Hc Hi).
    edestruct (insert_accepts env) as [row ->]; [done| |done|by eexists _, _].
    by rewrite lookup_insert_ne, lookup_insert_eq.
Qed.

(** X13: what a new row holds: the four fields of the extracted data
    ([main_image] under [image_url]), no folder, no summary, no notes and
    no tags, and the same instant as [created_at] and [updated_at]. *)
Theorem create_bookmark_row url user_id run env table row table' :
  create_bookmark url user_id run env table = (Return row, table') →
  ∃ page raw, extract_page_data run = crawl_ok page raw ∧
    page !! "title" = Some (Main.title row) ∧
    page !! "description" = Some (Main.description row) ∧
    page !! "content_markdown" = Some (Main.content_markdown row) ∧
    page !! "main_image" = Some (Main.image_url row) ∧
    folder_id row = None_ ∧ summary row = None_ ∧ notes row = None_ ∧
    tags row = None ∧
    created_at row = now env ∧ updated_at row = created_at row.
Proof.
  unfold create_bookmark.
  destruct (create_bookmark_try url user_id run env table)
    as [[row0 t0]|e] eqn:Htry; intros [= <- <-].
  unfold create_bookmark_try, getitem in Htry.
  destruct (extract_page_data run) as [page raw| |]; [|done..].
  destruct (page !! "title") as [t|] eqn:Ht; [|done].
  destruct (page !! "description") as [d|] eqn:Hd; [|done].
  destruct (page !! "content_markdown") as [c|] eqn:Hc; [|done].
  destruct (page !! "main_image") as [i|] eqn:Hi; [|done].
  cbn [mbind result_bind] in Htry. unfold insert in Htry.
  destruct (refused env); [done|].
  destruct (get _ "url" None_); [done|].
  destruct (decide (gen_random_uuid env ∈ id <$> table)); [done|].
  injection Htry as <- _. exists page, raw.
  cbn [Main.title Main.description Main.content_markdown Main.image_url
       folder_id summary notes tags created_at updated_at].
  unfold get. by simplify_map_eq.
Qed.

Lemma create_bookmark_row_witness :
  ∃ row table' page raw,
    create_bookmark Samples.link Samples.owner Samples.crawl_fine
      Samples.first_insert [] = (Return row, table') ∧
    extract_page_data Samples.crawl_fine = crawl_ok page raw ∧
    page !! "main_image" = Some (Main.image_url row) ∧
    folder_id row = None_ ∧ updated_at row = created_at row.
Proof.
  destruct (create_bookmark Samples.link Samples.owner Samples.crawl_fine
              Samples.first_insert []) as [[row|e] table'] eqn:H;
    [|vm_compute in H; discriminate].
  destruct (create_bookmark_row _ _ _ _ _ _ _ H)
    as (page & raw & Hrun & _ & _ & _ & Him & Hf & _ & _ & _ & _ & Hu).
  by exists row, table', page, raw.
Defined.

End create_bookmark_more.

Section create_bookmark_errors.

(** X14: the caller cannot tell why a crawl failed: every crawl that does
    not succeed gives the same exception, whatever the crawler reported,
    whatever the URL and the owner, and the table is untouched. *)
Theorem create_bookmark_failures_alike
    url1 user_id1 run1 env1 url2 user_id2 run2 env2 table :
  success (extract_page_data run1) = false →
  success (extract_page_data run2) = false →
  create_bookmark url1 user_id1 run1 env1 table =
    create_bookmark url2 user_id2 run2 env2 table ∧
  snd (create_bookmark url1 user_id1 run1 env1 table) = table.
Proof.
  intros H1 H2. by rewrite !create_bookmark_crawl_failed.
Qed.

Lemma create_bookmark_failures_alike_witness :
  create_bookmark Samples.link Samples.owner Samples.crawl_timeout
    Samples.first_insert [] =
  create_bookmark (lit "https://other.example") Samples.owner
    (run_unsuccessful (Text (lit "404"))) Samples.second_insert [] ∧
  snd (create_bookmark Samples.link Samples.owner Samples.crawl_timeout
         Samples.first_insert []) = [].
Proof.
  apply (create_bookmark_failures_alike Samples.link Samples.owner
           Samples.crawl_timeout Samples.first_insert
           (lit "https://other.example") Samples.owner
           (run_unsuccessful (Text (lit "404"))) Samples.second_insert []);
    reflexivity.
Defined.

(** X15: extracted data that is a JSON object but lacks one of the four
    keys makes the request fail, with the [KeyError] of the first missing
    key in the order [title], [description], [content_markdown],
    [main_image]; so a page without a main image must carry
    [main_image: null], leaving the key out loses the bookmark.
    Extracted data that is no JSON object at all (an array, a string, a
    number, a truth value, [null]) makes the request fail with the
    [TypeError] of its first subscript.  In both cases the response is a
    500 and nothing is inserted. *)
Theorem create_bookmark_missing_field url user_id run env table :
  (∀ page raw k before,
     extract_page_data run = crawl_ok page raw →
     before ++ [k] `prefix_of`
       ["title"; "description"; "content_markdown"; "main_image"] →
     (∀ k', k' ∈ before → is_Some (page !! k')) →
     page !! k = None →
     create_bookmark url user_id run env table =
       (Raise (HTTPException 500 (StrOf (KeyError k))), table)) ∧
  (∀ data raw,
     extract_page_data run = crawl_ok_not_object data raw →
     ∃ what,
       create_bookmark url user_id run env table =
         (Raise (HTTPException 500 (StrOf (TypeError what))), table)).
Proof.
  split.
  - intros page raw k before Hrun [rest Hpre] Hbefore Hk.
    unfold create_bookmark, create_bookmark_try, getitem. rewrite Hrun.
    destruct before as [|k1 [|k2 [|k3 [|k4 before]]]];
      simplify_eq/=; [by rewrite Hk|..].
    + destruct (Hbefore "title") as [? ->]; [set_solver|]. by rewrite Hk.
    + destruct (Hbefore "title") as [? ->]; [set_solver|].
      destruct (Hbefore "description") as [? ->]; [set_solver|].
      by rewrite Hk.
    + destruct (Hbefore "title") as [? ->]; [set_solver|].
      destruct (Hbefore "description") as [? ->]; [set_solver|].
      destruct (Hbefore "content_markdown") as [? ->]; [set_solver|].
      by rewrite Hk.
    + by destruct before.
  - intros data raw Hrun.
    unfold create_bookmark, create_bookmark_try. rewrite Hrun.
    unfold getitem_not_object. by eexists.
Qed.

Lemma create_bookmark_missing_field_witness :
  create_bookmark Samples.link Samples.owner
    (run_successful
       (<["title" := Str (lit "A")]>
        (<["description" := Str (lit "desc")]>
        (<["content_markdown" := Str (lit "# A")]> ∅))) (lit "# A"))
    Samples.first_insert [] =
  (Raise (HTTPException 500 (StrOf (KeyError "main_image"))), []) ∧
  ∃ what,
    create_bookmark Samples.link Samples.owner
      (run_successful_not_object json_array (lit "# A"))
      Samples.first_insert [] =
    (Raise (HTTPException 500 (StrOf (TypeError what))), []).
Proof.
  split.
  - match goal with
    | |- create_bookmark _ _ (run_successful ?page ?raw) _ _ = _ =>
        apply (proj1 (create_bookmark_missing_field Samples.link Samples.owner
                        (run_successful page raw) Samples.first_insert [])
                 page raw "main_image"
                 ["title"; "description"; "content_markdown"] eq_refl)
    end.
    + by exists [].
    + intros k' Hk'.
      repeat (apply elem_of_cons in Hk' as [->|Hk']; [vm_compute; eauto|]).
      by apply elem_of_nil in Hk'.
    + vm_compute; reflexivity.
  - apply (proj2 (create_bookmark_missing_field Samples.link Samples.owner
                    (run_successful_not_object json_array (lit "# A"))
                    Samples.first_insert [])
             json_array (lit "# A") eq_refl).
Defined.

Example create_bookmark_array :
  create_bookmark Samples.link Samples.owner
    (run_successful_not_object json_array (lit "# A")) Samples.first_insert [] =
  (Raise (HTTPException 500
            (StrOf (TypeError
                      "list indices must be integers or slices, not str"))),
   []).
Proof. vm_compute; reflexivity. Qed.

(** X16: a call of [create_bookmark] for one owner and URL changes the
    rows of no other owner and of no other URL. *)
Theorem create_bookmark_other_rows
    url user_id run env table response table' owner' url' :
  create_bookmark url user_id run env table = (response, table') →
  owner' ≠ user_id ∨ url' ≠ url →
  rows_of owner' url' table' = rows_of owner' url' table.
Proof.
  intros H Hne. destruct response as [row|e].
  - apply create_bookmark_Return in H as (-> & _ & _ & Hu & Ho & _).
    rewrite rows_of_app. unfold rows_of at 2.
    rewrite filter_cons_False, filter_nil, app_nil_r; [done|].
    rewrite Hu, Ho. intros [[= ->] ->]. by destruct Hne.
  - by apply create_bookmark_Raise in H as (-> & _).
Qed.

Lemma create_bookmark_other_rows_witness :
  rows_of (lit "someone else") Samples.link
    (snd (create_bookmark Samples.link Samples.owner Samples.crawl_fine
            Samples.first_insert [])) =
  rows_of (lit "someone else") Samples.link [].
Proof.
  eapply (create_bookmark_other_rows Samples.link Samples.owner
            Samples.crawl_fine Samples.first_insert []).
  - vm_compute; reflexivity.
  - left. vm_compute. discriminate.
Defined.

End create_bookmark_errors.

(** * Further properties of the subscription page *)

Section subscription_more.

Example renderDashboard_sarah :
  Render.renderDashboard (Some Visitors.sarah) =
  Render.dashboard_active (Some "sarah@example.com") (Some "每週") "2025-06-15"
    [("人工智慧", "#4F46E5"); ("區塊鏈", "#059669")].
Proof. vm_compute; reflexivity. Qed.

Example renderDashboard_techie :
  Render.renderDashboard (Some Visitors.techie) =
  Render.dashboard_active (Some "t@example.com") (Some "hourly") "2025-06-15"
    [("科技趨勢", "#7C2D12")].
Proof. vm_compute; reflexivity. Qed.

Example showNewsletterPreview_sarah :
  ∃ nl, Render.showNewsletterPreview (Some Visitors.sarah) "2025/6/15" =
          Render.Normal nl ∧
        Render.topicNames nl = "人工智慧與區塊鏈" ∧
        Render.recipient nl = "sarah" ∧
        AppData.id <$> Render.relevantArticles nl = [1; 2; 4]%N.
Proof. eexists. split; [vm_compute; reflexivity|]. by repeat split. Qed.

(** X17: a form with an address and at least one topic subscribes.
    [currentUser] and the saved user both become the new subscription,
    whatever they were before; it is active, dated with the part of the
    first time stamp before its [T], and exactly one request is posted to
    the webhook, with the same address, topics and frequency; then come
    the toast, the dashboard of the new user and the delayed scroll. *)
Theorem handleSubscription_subscribes form iso1 iso2 st e :
  get_email form = Some e → e ≠ "" → getAll_topics form ≠ [] →
  let u := {| email := Some e;
              frequency := get_frequency form;
              topics := getAll_topics form;
              subscriptionDate := split_T_0 iso1;
              status := "active" |} in
  currentUser (handleSubscription form iso1 iso2 st) = Some u ∧
  Render.getCurrentUser (handleSubscription form iso1 iso2 st) = Some u ∧
  effects (handleSubscription form iso1 iso2 st) =
    effects st ++
    [fetch_post webhook_endpoint
       {| body_email := Some e;
          body_topics := getAll_topics form;
          body_frequency := get_frequency form;
          body_subscriptionDate := iso2;
          body_source := "insight_hub_web" |};
     showSuccessToast;
     renderDashboard (Some u);
     setTimeout_scrollToSection "dashboard" 1000].
Proof.
  intros He Hne Ht. unfold handleSubscription. rewrite He.
  destruct e as [|a e]; [done|].
  destruct (getAll_topics form) as [|t ts] eqn:Hts; [done|].
  cbn [not_ orb length]. rewrite bool_decide_eq_false_2 by done.
  unfold emit, saveCurrentUser, Render.getCurrentUser. cbn.
  by rewrite <- !app_assoc.
Qed.

Lemma handleSubscription_subscribes_witness :
  currentUser (handleSubscription Samples.form_complete
                 "2025-06-15T08:30:00.000Z" "" Samples.fresh_page) =
    Some {| email := Some "a@b.c"; frequency := Some "weekly";
            topics := ["AI"; "ESG"]; subscriptionDate := "2025-06-15";
            status := "active" |}.
Proof.
  apply (handleSubscription_subscribes Samples.form_complete
           "2025-06-15T08:30:00.000Z" "" Samples.fresh_page "a@b.c");
    [reflexivity|discriminate..].
Defined.

(** X18: [handleSubscription] keeps [currentUser] and the saved user in
    step: when [getCurrentUser()] gives [currentUser] before the call, it
    does so after it, whether the form was accepted or not. *)
Theorem handleSubscription_saved_in_step form iso1 iso2 st :
  Render.getCurrentUser st = currentUser st →
  Render.getCurrentUser (handleSubscription form iso1 iso2 st) =
    currentUser (handleSubscription form iso1 iso2 st).
Proof.
  intros H. unfold handleSubscription.
  by destruct (not_ (get_email form)
               || bool_decide (length (getAll_topics form) = 0)).
Qed.

Lemma handleSubscription_saved_in_step_witness :
  Render.getCurrentUser
    (handleSubscription Samples.form_complete "" "" Samples.fresh_page) =
  currentUser
    (handleSubscription Samples.form_complete "" "" Samples.fresh_page).
Proof.
  apply (handleSubscription_saved_in_step Samples.form_complete "" ""
           Samples.fresh_page).
  reflexivity.
Defined.

Lemma split_T_0_split_0 (iso : string) :
  split_T_0 iso = Render.split_0 "T" iso.
Proof. induction iso as [|c rest IH]; [done|]. simpl. by rewrite IH. Qed.

Lemma split_0_append (sep : ascii) (d rest : string) :
  sep ∉ list_ascii_of_string d →
  Render.split_0 sep (String.append d (String sep rest)) = d.
Proof.
  induction d as [|c d IH]; simpl; intros Hd.
  - by rewrite Ascii.eqb_refl.
  - apply not_elem_of_cons in Hd as [Hc Hd].
    destruct (Ascii.eqb_spec c sep) as [->|_]; [done|]. by rewrite IH.
Qed.

Lemma split_0_no_sep (sep : ascii) (s : string) :
  sep ∉ list_ascii_of_string s → Render.split_0 sep s = s.
Proof.
  induction s as [|c s IH]; simpl; intros Hs; [done|].
  apply not_elem_of_cons in Hs as [Hc Hs].
  destruct (Ascii.eqb_spec c sep) as [->|_]; [done|]. by rewrite IH.
Qed.

Lemma split_0_free (sep : ascii) (s : string) :
  sep ∉ list_ascii_of_string (Render.split_0 sep s).
Proof.
  induction s as [|c s IH]; simpl; [apply not_elem_of_nil|].
  destruct (Ascii.eqb_spec c sep) as [->|Hne]; [apply not_elem_of_nil|].
  simpl. apply not_elem_of_cons. split; [congruence|done].
Qed.

(** X19: the subscription date is the date of the time stamp: of a
    stamp made of a date without [T], a [T] and a time, the date is
    kept; a stamp without any [T] is kept whole; and the date kept never
    contains a [T]. *)
Theorem split_T_0_date (iso : string) :
  (∀ d time, "T"%char ∉ list_ascii_of_string d →
     iso = String.append d (String "T" time) → split_T_0 iso = d) ∧
  ("T"%char ∉ list_ascii_of_string iso → split_T_0 iso = iso) ∧
  "T"%char ∉ list_ascii_of_string (split_T_0 iso).
Proof.
  rewrite split_T_0_split_0. split; [|split].
  - intros d time Hd ->. by apply split_0_append.
  - apply split_0_no_sep.
  - apply split_0_free.
Qed.

Lemma split_T_0_date_witness :
  split_T_0 "2025-06-15T08:30:00.000Z" = "2025-06-15".
Proof.
  apply (proj1 (split_T_0_date "2025-06-15T08:30:00.000Z")
           "2025-06-15" "08:30:00.000Z"); [|reflexivity].
  vm_compute. intros H.
  repeat (apply elem_of_cons in H as [H|H]; [discriminate|]).
  by apply elem_of_nil in H.
Defined.

End subscription_more.

(** * Further properties of what the page shows *)

Section render_more.

Lemma find_topic_Some (topicName : string) (t : AppData.topic_entry) :
  Render.find_topic topicName = Some t →
  t ∈ AppData.topics ∧ AppData.name t = topicName.
Proof.
  unfold Render.find_topic. intros [Hin Heq]%find_some.
  split; [by apply list_elem_of_In|by apply String.eqb_eq].
Qed.

Lemma find_topic_known (topicName : string) :
  topicName ∈ AppData.name <$> AppData.topics →
  is_Some (Render.find_topic topicName).
Proof.
  intros (t & -> & Ht)%list_elem_of_fmap.
  destruct (Render.find_topic (AppData.name t)) as [t'|] eqn:Hfind; [done|].
  unfold Render.find_topic in Hfind.
  apply list_elem_of_In in Ht.
  pose proof (find_none _ _ Hfind t Ht) as H. cbn in H.
  by rewrite String.eqb_refl in H.
Qed.

Lemma length_omap_le {A B} (f : A → option B) (l : list A) :
  length (omap f l) ≤ length l.
Proof.
  induction l as [|x l IH]; [done|].
  change (omap f (x :: l))
    with (match f x with Some y => y :: omap f l | None => omap f l end).
  destruct (f x); simpl; lia.
Qed.

Lemma length_omap_total {A B} (f : A → option B) (l : list A) :
  Forall (λ x, is_Some (f x)) l → length (omap f l) = length l.
Proof.
  induction 1 as [|x l [y Hy] _ IH]; [done|].
  change (omap f (x :: l))
    with (match f x with Some y => y :: omap f l | None => omap f l end).
  rewrite Hy. simpl. lia.
Qed.

(** X20: the newsletter preview of a subscriber with an address never
    throws.  It lists at most three articles, all of them articles of
    the page on topics of the subscriber, in the order of the page;
    when it lists fewer than three, it lists every such article.  A subscriber none of whose topics has an article gets an
    empty newsletter. *)
Theorem showNewsletterPreview_articles (u : user) (today e : string) :
  email u = Some e →
  ∃ nl, Render.showNewsletterPreview (Some u) today = Render.Normal nl ∧
    length (Render.relevantArticles nl) ≤ 3 ∧
    Render.relevantArticles nl `sublist_of` AppData.articles ∧
    (∀ a, a ∈ Render.relevantArticles nl → AppData.topic a ∈ topics u) ∧
    (length (Render.relevantArticles nl) < 3 →
     ∀ a, a ∈ AppData.articles → AppData.topic a ∈ topics u →
          a ∈ Render.relevantArticles nl) ∧
    ((∀ a, a ∈ AppData.articles → AppData.topic a ∉ topics u) →
     Render.relevantArticles nl = []).
Proof.
  intros He. unfold Render.showNewsletterPreview. rewrite He.
  eexists. split; [done|]. cbn [Render.relevantArticles].
  set (matching := filter (λ a, AppData.topic a ∈ topics u) AppData.articles).
  split; [rewrite length_take; lia|].
  split; [etrans; [apply sublist_take|apply sublist_filter]|].
  split.
  - intros a Ha%subseteq_take. by apply list_elem_of_filter in Ha as [? _].
  - split.
    + intros Hlen a Ha Ht.
      rewrite take_ge; [by apply list_elem_of_filter|].
      rewrite length_take in Hlen. lia.
    + intros Hnone.
      assert (matching = []) as ->; [|done].
      apply elem_of_nil_inv. intros a [Ht Ha]%list_elem_of_filter.
      by apply (Hnone a).
Qed.

Lemma showNewsletterPreview_articles_witness :
  ∃ nl, Render.showNewsletterPreview (Some Visitors.techie) "2025/6/15" =
          Render.Normal nl ∧
        Render.relevantArticles nl = [].
Proof.
  destruct (showNewsletterPreview_articles Visitors.techie "2025/6/15"
              "t@example.com" eq_refl)
    as (nl & Hnl & _ & _ & _ & _ & Hnone).
  exists nl. split; [done|]. apply Hnone.
  intros a Ha. vm_compute in Ha.
  repeat (apply elem_of_cons in Ha as [->|Ha];
          [vm_compute; intros H;
           repeat (apply elem_of_cons in H as [H|H]; [discriminate|]);
           by apply elem_of_nil in H|]).
  by apply elem_of_nil in Ha.
Defined.

Lemma find_topic_unknown (topicName : string) :
  topicName ∉ AppData.name <$> AppData.topics →
  Render.find_topic topicName = None.
Proof.
  intros Hn. destruct (Render.find_topic topicName) as [t|] eqn:Hfind; [|done].
  apply find_topic_Some in Hfind as [Ht <-]. destruct Hn.
  apply list_elem_of_fmap. by exists t.
Qed.

(** The topics of a subscription that the page knows, with the entry of
    each, and what the dashboard makes of them. *)
Lemma subscribedTopicsInfo_known (l : list string) :
  ∃ shown,
    Forall2 (λ n t, t ∈ AppData.topics ∧ AppData.name t = n)
      (filter (λ n, n ∈ AppData.name <$> AppData.topics) l) shown ∧
    omap (λ topicName,
            (λ topic, (AppData.displayName topic, AppData.color topic))
              <$> Render.find_topic topicName) l =
      (λ t, (AppData.displayName t, AppData.color t)) <$> shown.
Proof.
  induction l as [|n l (shown & Hshown & IH)]; [by exists []|].
  change (omap ?f (n :: l))
    with (match f n with Some y => y :: omap f l | None => omap f l end).
  destruct (decide (n ∈ AppData.name <$> AppData.topics)) as [Hn|Hn].
  - destruct (find_topic_known n Hn) as [t Ht].
    exists (t :: shown). rewrite filter_cons_True by done. rewrite Ht.
    cbn [fmap option_fmap option_map]. rewrite IH.
    split; [|done]. constructor; [|done]. by apply find_topic_Some.
  - exists shown. rewrite filter_cons_False by done.
    rewrite (find_topic_unknown n Hn). by split.
Qed.

(** X21: the dashboard shows the placeholder exactly when there is no
    current user.  For a user it shows the address, the frequency label
    and the date of the subscription, and exactly one entry, display name
    and colour, for each subscribed topic that the page knows, in the
    order of the subscription, the entry being that of the topic of this
    name; topics the page does not know are dropped without an error.  No
    two topics of the page have the same name, so the entries are
    determined. *)
Theorem renderDashboard_topics (currentUser : option user) :
  (Render.renderDashboard currentUser = Render.dashboard_placeholder ↔
   currentUser = None) ∧
  NoDup (AppData.name <$> AppData.topics) ∧
  (∀ u, currentUser = Some u →
     ∃ shown,
       Forall2 (λ n t, t ∈ AppData.topics ∧ AppData.name t = n)
         (filter (λ n, n ∈ AppData.name <$> AppData.topics) (topics u))
         shown ∧
       Render.renderDashboard currentUser =
         Render.dashboard_active (email u) (Render.frequencyLabel u)
           (subscriptionDate u)
           ((λ t, (AppData.displayName t, AppData.color t)) <$> shown) ∧
       (Forall (λ n, n ∈ AppData.name <$> AppData.topics) (topics u) →
        length shown = length (topics u))).
Proof.
  split; [by destruct currentUser|]. split.
  { apply (bool_decide_unpack _). vm_compute. exact I. }
  intros u ->.
  destruct (subscribedTopicsInfo_known (topics u)) as (shown & Hshown & Hinfo).
  exists shown. split; [done|]. split.
  - cbn [Render.renderDashboard]. unfold Render.subscribedTopicsInfo.
    by rewrite Hinfo.
  - intros Hall. rewrite <- (Forall2_length _ _ _ Hshown). f_equal.
    clear Hshown Hinfo. induction Hall as [|n l Hn _ IH]; [done|].
    by rewrite filter_cons_True, IH.
Qed.

Lemma renderDashboard_topics_witness :
  ∃ shown,
    Forall2 (λ n t, t ∈ AppData.topics ∧ AppData.name t = n)
      (filter (λ n, n ∈ AppData.name <$> AppData.topics)
         (topics Visitors.techie)) shown ∧
    Render.renderDashboard (Some Visitors.techie) =
      Render.dashboard_active (email Visitors.techie)
        (Render.frequencyLabel Visitors.techie)
        (subscriptionDate Visitors.techie)
        ((λ t, (AppData.displayName t, AppData.color t)) <$> shown).
Proof.
  destruct (proj2 (proj2 (renderDashboard_topics (Some Visitors.techie)))
              Visitors.techie eq_refl) as (shown & Hshown & Hrender & _).
  by exists shown.
Defined.

(** Of the two topics of this subscriber the page knows one; it is the
    only entry shown. *)
Example renderDashboard_drops_unknown :
  filter (λ n, n ∈ AppData.name <$> AppData.topics) (topics Visitors.techie) =
    ["Technology"] ∧
  Render.renderDashboard (Some Visitors.techie) =
    Render.dashboard_active (Some "t@example.com") (Some "hourly")
      "2025-06-15" [("科技趨勢", "#7C2D12")].
Proof. split; vm_compute; reflexivity. Qed.

(** X22: the frequency shown is the label of the page for [daily],
    [weekly] and [monthly], and the stored value itself, which may be
    [null], for anything else. *)
Theorem frequencyLabel_cases (u : user) :
  (frequency u = Some "daily" → Render.frequencyLabel u = Some "每日") ∧
  (frequency u = Some "weekly" → Render.frequencyLabel u = Some "每週") ∧
  (frequency u = Some "monthly" → Render.frequencyLabel u = Some "每月") ∧
  (frequency u ∉ [Some "daily"; Some "weekly"; Some "monthly"] →
   Render.frequencyLabel u = frequency u).
Proof.
  unfold Render.frequencyLabel.
  split; [by intros ->|]. split; [by intros ->|]. split; [by intros ->|].
  intros Hf. destruct (frequency u) as [v|]; [|done].
  cbn [List.find AppData.newsletterFrequencies AppData.value].
  destruct (String.eqb_spec "daily" v) as [<-|_]; [set_solver|].
  destruct (String.eqb_spec "weekly" v) as [<-|_]; [set_solver|].
  destruct (String.eqb_spec "monthly" v) as [<-|_]; [set_solver|].
  done.
Qed.

Lemma frequencyLabel_cases_witness :
  Render.frequencyLabel Visitors.techie = Some "hourly".
Proof.
  apply (proj2 (proj2 (proj2 (frequencyLabel_cases Visitors.techie)))).
  vm_compute. intros H.
  repeat (apply elem_of_cons in H as [H|H]; [discriminate|]).
  by apply elem_of_nil in H.
Defined.

End render_more.

Section renderArticles_more.

Example renderArticles_ESG :
  ∃ cards, Render.renderArticles "ESG" = Render.Normal cards ∧
    Render.article_title <$> cards =
      ["ESG Investment Trends in 2025";
       "Corporate Sustainability Reporting Standards"] ∧
    Render.topic_color <$> cards = ["#DC2626"; "#DC2626"].
Proof. eexists. split; [vm_compute; reflexivity|]. by split. Qed.

Lemma articles_topics_known :
  Forall (λ a, is_Some (Render.find_topic (AppData.topic a))) AppData.articles.
Proof. repeat constructor; vm_compute; eauto. Qed.

Lemma render_cards (l : list AppData.article) :
  Forall (λ a, is_Some (Render.find_topic (AppData.topic a))) l →
  ∃ cards,
    mapM (λ article,
            match Render.find_topic (AppData.topic article) with
            | Some topic =>
                Render.Normal
                  {| Render.data_topic := AppData.topic article;
                     Render.topic_color := AppData.color topic;
                     Render.topic_displayName := AppData.displayName topic;
                     Render.article_title := AppData.title article;
                     Render.article_excerpt := AppData.excerpt article;
                     Render.article_author := AppData.author article;
                     Render.article_readTime := AppData.readTime article |}
            | None =>
                Render.Throw
                  "Cannot read properties of undefined (reading 'color')"
            end) l = Render.Normal cards ∧
    Forall2 ArticleCard.card_of l cards.
Proof.
  induction 1 as [|a l [t Ht] _ (cards & IH & Hcards)].
  - exists []. by split.
  - eexists (_ :: cards). cbn [mapM]. rewrite Ht.
    cbn [mbind Render.completion_bind]. rewrite IH.
    split; [reflexivity|]. constructor; [|done].
    apply find_topic_Some in Ht as [Hin Hname].
    repeat split. by exists t.
Qed.

(** X23: [renderArticles] never throws, whatever the filter.  With
    [all] it writes one card per article of the page, in order; with any
    other filter, one card per article of exactly that topic, so a topic
    without articles gives an empty grid.  Each card carries the title,
    excerpt, author and reading time of its article and the colour and
    display name of the topic of that article. *)
Theorem renderArticles_cards (filterTopic : string) :
  ∃ cards, Render.renderArticles filterTopic = Render.Normal cards ∧
    (filterTopic = "all" → Forall2 ArticleCard.card_of AppData.articles cards) ∧
    (filterTopic ≠ "all" →
     Forall2 ArticleCard.card_of
       (filter (λ a, AppData.topic a = filterTopic) AppData.articles) cards ∧
     Forall (λ c, Render.data_topic c = filterTopic) cards) ∧
    (filterTopic ∉ ["all"; "AI"; "Blockchain"; "ESG"] → cards = []).
Proof.
  unfold Render.renderArticles.
  destruct (String.eqb_spec filterTopic "all") as [->|Hne].
  - destruct (render_cards AppData.articles articles_topics_known)
      as (cards & -> & Hcards).
    exists cards. split; [done|]. split; [done|]. split; [done|].
    intros H. exfalso. apply H. left.
  - destruct (render_cards
                (filter (λ a, AppData.topic a = filterTopic) AppData.articles))
      as (cards & -> & Hcards).
    { apply Forall_forall. intros a [_ Ha]%list_elem_of_filter.
      by apply (proj1 (Forall_forall _ _) articles_topics_known). }
    exists cards. split; [done|]. split; [done|]. split.
    + intros _. split; [done|].
      apply Forall_forall. intros c Hc.
      destruct (proj1 (list_elem_of_lookup _ _) Hc) as [i Hi].
      destruct (Forall2_lookup_r _ _ _ _ _ Hcards Hi) as (a & Ha & Hca).
      apply list_elem_of_lookup_2, list_elem_of_filter in Ha as [Ht _].
      destruct Hca as [-> _]. done.
    + intros Hother.
      assert (filter (λ a, AppData.topic a = filterTopic) AppData.articles = [])
        as Hnil.
      { apply elem_of_nil_inv. intros a [Ht Ha]%list_elem_of_filter.
        apply Hother. subst filterTopic. vm_compute in Ha.
        repeat (apply elem_of_cons in Ha as [->|Ha]; [vm_compute; set_solver|]).
        by apply elem_of_nil in Ha. }
      rewrite Hnil in Hcards. by inversion Hcards.
Qed.

Lemma renderArticles_cards_witness :
  Render.renderArticles "Technology" = Render.Normal [].
Proof.
  destruct (renderArticles_cards "Technology") as (cards & -> & _ & _ & H).
  rewrite H; [done|]. vm_compute. intros Hin.
  repeat (apply elem_of_cons in Hin as [Hin|Hin]; [discriminate|]).
  by apply elem_of_nil in Hin.
Defined.

(** X24: after an accepted form the page has something to show: the
    dashboard of the current user is the active one, with the address of
    the form and the date of the subscription, and the newsletter preview
    does not throw and addresses the part of the address before its
    first [@]. *)
Theorem handleSubscription_then_render form iso1 iso2 st e today :
  get_email form = Some e → e ≠ "" → getAll_topics form ≠ [] →
  (∃ label info,
     Render.renderDashboard (currentUser (handleSubscription form iso1 iso2 st)) =
       Render.dashboard_active (Some e) label (split_T_0 iso1) info) ∧
  (∃ nl,
     Render.showNewsletterPreview
       (currentUser (handleSubscription form iso1 iso2 st)) today =
       Render.Normal nl ∧
     Render.recipient nl = Render.split_0 "@" e ∧
     "@"%char ∉ list_ascii_of_string (Render.recipient nl)).
Proof.
  intros He Hne Ht. unfold handleSubscription. rewrite He.
  destruct e as [|a e]; [done|].
  destruct (getAll_topics form) as [|t ts] eqn:Hts; [done|].
  cbn [not_ orb length]. rewrite bool_decide_eq_false_2 by done.
  unfold emit, saveCurrentUser. cbn [currentUser].
  split; [by eexists _, _|].
  eexists. split; [reflexivity|]. split; [done|].
  cbn [Render.recipient]. apply split_0_free.
Qed.

Lemma handleSubscription_then_render_witness :
  ∃ nl,
    Render.showNewsletterPreview
      (currentUser (handleSubscription Samples.form_complete "" ""
                      Samples.fresh_page)) "2025/6/15" = Render.Normal nl ∧
    Render.recipient nl = Render.split_0 "@" "a@b.c".
Proof.
  destruct (handleSubscription_then_render Samples.form_complete "" ""
              Samples.fresh_page "a@b.c" "2025/6/15")
    as (_ & nl & Hnl & Hr & _); [reflexivity|discriminate..|].
  by exists nl.
Defined.

End renderArticles_more.

(** * The FAQ accordion *)

Section faq_facts.

Import Faq.

Example click_opens_and_closes :
  active <$> click 2 (click 0 Accordions.all_closed) = [false; false; true] ∧
  maxHeight <$> click 2 (click 0 Accordions.all_closed) =
    [Some 0; None; Some 60]%N.
Proof. split; vm_compute; reflexivity. Qed.

Lemma click_lookup (faqItems : list item) (i j : nat) (it : item) :
  faqItems !! i = Some it →
  click i faqItems !! j =
    if decide (j = i)
    then Some (if active it then closeItem it else openItem it)
    else (λ other, if active other then closeItem other else other)
           <$> faqItems !! j.
Proof.
  intros Hi. unfold click. rewrite Hi. destruct (decide (j = i)) as [->|Hne].
  - rewrite list_lookup_alter_eq, list_lookup_imap, Hi. cbn [fmap option_fmap option_map].
    rewrite bool_decide_eq_false_2 by (by intros H). by destruct (active it).
  - rewrite list_lookup_alter_ne by done. rewrite list_lookup_imap.
    destruct (faqItems !! j) as [other|]; [|done]. cbn.
    by rewrite bool_decide_eq_true_2.
Qed.

Lemma open_items_none (l : list item) :
  (∀ j x, l !! j = Some x → active x = false) → open_items l = [].
Proof.
  induction l as [|x l IH]; intros H; [done|].
  unfold open_items. rewrite filter_cons_False.
  - apply IH. intros j y Hj. by apply (H (S j)).
  - rewrite (H 0 x eq_refl). done.
Qed.


Lemma click_others_closed (faqItems : list item) (i : nat) (it : item) :
  faqItems !! i = Some it →
  ∀ j other, j ≠ i → click i faqItems !! j = Some other →
             active other = false.
Proof.
  intros Hi j other Hne. rewrite (click_lookup _ _ _ _ Hi).
  rewrite decide_False by done.
  destruct (faqItems !! j) as [o|]; [|done]. cbn. intros [= <-].
  by destruct (active o) eqn:Ho.
Qed.



(** X26: the Escape key after a click leaves no item open, but it only
    takes the class away: an item that the click had opened keeps the
    [max-height] of an open answer, which [closeItem] would have set to
    zero. *)
Theorem escape_after_click (faqItems : list item) (i : nat) (it : item) :
  faqItems !! i = Some it →
  open_items (escape (click i faqItems)) = [] ∧
  (active it = false →
   escape (click i faqItems) !! i =
     Some {| active := false;
             content_height := content_height it;
             maxHeight := Some (content_height it);
             transform := Some "translateZ(0)" |}).
Proof.
  intros Hi.
  pose proof (click_others_closed _ _ _ Hi) as Hothers.
  assert (click i faqItems !! i =
            Some (if active it then closeItem it else openItem it)) as Hat
    by (by rewrite (click_lookup _ _ _ _ Hi), decide_True).
  unfold escape.
  destruct (list_find _ (click i faqItems)) as [[k x]|] eqn:Hfind.
  - apply list_find_Some in Hfind as (Hk & Hx & _).
    assert (k = i) as ->.
    { destruct (decide (k = i)) as [|Hne]; [done|].
      by rewrite (Hothers k x Hne Hk) in Hx. }
    rewrite Hat in Hk. injection Hk as <-.
    destruct (active it) eqn:Hact; [done|]. split.
    + apply open_items_none. intros j y.
      destruct (decide (j = i)) as [->|Hne].
      * rewrite list_lookup_alter_eq, Hat. by intros [= <-].
      * rewrite list_lookup_alter_ne by done. by apply Hothers.
    + intros _. by rewrite list_lookup_alter_eq, Hat.
  - apply list_find_None in Hfind.
    split; [apply open_items_none; intros j y Hj;
            apply (proj1 (Forall_lookup _ _) Hfind) in Hj;
            by destruct (active y)|].
    intros Hact. exfalso.
    apply (proj1 (Forall_lookup _ _) Hfind) in Hat.
    rewrite Hact in Hat. by apply Hat.
Qed.

Lemma escape_after_click_witness :
  open_items (escape (click 0 Accordions.all_closed)) = [] ∧
  (maxHeight <$> escape (click 0 Accordions.all_closed)) !! 0 =
    Some (Some 40%N).
Proof.
  destruct (escape_after_click Accordions.all_closed 0
              (Accordions.untouched 40) eq_refl) as [Hnone Hkeeps].
  split; [done|]. rewrite list_lookup_fmap, Hkeeps; reflexivity.
Defined.

End faq_facts.
